(** * Excel Insights: the chat engine of [useChatEngine.ts]

    A shallow embedding of the response dispatcher ([generateMockResponse]),
    of the session store kept by the [useChatEngine] hook, and of the
    [handleSend] handler of the chat area, followed by the properties the
    specification states about them.

    Conventions of the embedding.
    - A JavaScript string is a [string]: the sequence of its UTF-8 bytes.
      Every keyword and every pattern the program searches for is ASCII, and
      an ASCII byte never occurs inside a multi-byte sequence, so searching
      bytes and searching code units agree.
    - [Math.random] and [new Date()] are inputs: an operation that calls
      [generateId()] or [new Date()] takes the generated id and the time as
      arguments.
    - React state is passed explicitly: an operation maps the state of the
      render that created it to the next state.  The callback given to
      [setTimeout] is a value of type [Pending], run later by
      [sendMessage_timeout] on whatever the state is by then. *)

From Stdlib Require Import String Ascii List Bool Arith ZArith Lia DecimalString.
From Stdlib Require DecimalFacts DecimalNat.
Import ListNotations.
Local Open Scope list_scope.
Local Open Scope string_scope.

(** ** Primitives of the host language *)

Module JS.

(** The line feed written [\n] in the source. *)
Definition nl : string := String (ascii_of_nat 10) EmptyString.

(** The double quote character. *)
Definition dq : string := String (ascii_of_nat 34) EmptyString.

(** [String.prototype.toLowerCase] on one byte.  Only [A]-[Z] are folded:
    of the characters outside ASCII, the ones whose lower case contains an
    ASCII letter yield [i] followed by a combining dot, or [k]; no keyword
    of the dispatcher contains [k] or can match across the combining dot. *)
Definition lowerChar (c : ascii) : ascii :=
  let n := nat_of_ascii c in
  if ((65 <=? n)%nat && (n <=? 90)%nat)%bool then ascii_of_nat (n + 32) else c.

Fixpoint toLowerCase (s : string) : string :=
  match s with
  | EmptyString => EmptyString
  | String c r => String (lowerChar c) (toLowerCase r)
  end.

(** [s.includes(k)]: [k] occurs in [s] as a contiguous substring. *)
Fixpoint includes (s k : string) : bool :=
  if prefix k s then true
  else match s with
       | EmptyString => false
       | String _ r => includes r k
       end.

(** [String(n)] for a non-negative integer such as a length. *)
Definition numToString (n : nat) : string :=
  NilEmpty.string_of_uint (Nat.to_uint n).

(** [xs.join(sep)] on an array of strings. *)
Fixpoint join (sep : string) (xs : list string) : string :=
  match xs with
  | [] => EmptyString
  | [x] => x
  | x :: r => x ++ sep ++ join sep r
  end.

(** [xs.map((x, i) => f(x, i))], the index counted from [i]. *)
Fixpoint mapiFrom {A B} (f : A -> nat -> B) (i : nat) (xs : list A) : list B :=
  match xs with
  | [] => []
  | x :: r => f x i :: mapiFrom f (S i) r
  end.

Definition mapi {A B} (f : A -> nat -> B) (xs : list A) : list B :=
  mapiFrom f 0 xs.

(** An array that may have holes is a list of options, [None] being a hole:
    [sheet_to_json] with [header: 1] leaves a hole for an empty cell. *)

(** What [join] makes of an element: a hole reads as [undefined], which
    [join] writes as the empty string. *)
Definition elementText (x : option string) : string :=
  match x with
  | Some t => t
  | None => EmptyString
  end.

(** [xs.join(sep)] on an array of strings with holes. *)
Definition joinSparse (sep : string) (xs : list (option string)) : string :=
  join sep (map elementText xs).

(** [xs.map((x, i) => f(x, i))] on an array with holes: the callback is not
    called for a hole, and the result has a hole at the same index. *)
Definition mapSparse {A B} (f : A -> nat -> B) (xs : list (option A))
  : list (option B) :=
  mapi (fun x i => option_map (fun a => f a i) x) xs.

(** A relative index of [Array.prototype.slice], clamped into [0..len]. *)
Definition clampIndex (len i : Z) : Z :=
  if (i <? 0)%Z then Z.max (len + i) 0 else Z.min i len.

(** [xs.slice(start, stop)]; [stop = None] is the one-argument call. *)
Definition slice {A} (start : Z) (stop : option Z) (xs : list A) : list A :=
  let len := Z.of_nat (List.length xs) in
  let k := clampIndex len start in
  let e := match stop with
           | None => len
           | Some e => clampIndex len e
           end in
  firstn (Z.to_nat (e - k)) (skipn (Z.to_nat k) xs).

(** The byte sequences of the code points [String.prototype.trim] removes:
    WhiteSpace (TAB, VT, FF, SP, NBSP, ZWNBSP and category Zs) and
    LineTerminator (LF, CR, LS, PS). *)
Definition b1 (a : nat) : string := String (ascii_of_nat a) EmptyString.
Definition b2 (a b : nat) : string := String (ascii_of_nat a) (b1 b).
Definition b3 (a b c : nat) : string := String (ascii_of_nat a) (b2 b c).

Definition whiteSpace : list string :=
  [ b1 9; b1 10; b1 11; b1 12; b1 13; b1 32;
    b2 194 160;                                   (* U+00A0 *)
    b3 225 154 128;                               (* U+1680 *)
    b3 226 128 128; b3 226 128 129; b3 226 128 130; b3 226 128 131;
    b3 226 128 132; b3 226 128 133; b3 226 128 134; b3 226 128 135;
    b3 226 128 136; b3 226 128 137; b3 226 128 138; (* U+2000..U+200A *)
    b3 226 128 168; b3 226 128 169;               (* U+2028, U+2029 *)
    b3 226 128 175;                               (* U+202F *)
    b3 226 129 159;                               (* U+205F *)
    b3 227 128 128;                               (* U+3000 *)
    b3 239 187 191 ].                             (* U+FEFF *)

(** The first entry of [ws] that [s] starts with, if any. *)
Definition leading (ws : list string) (s : string) : option string :=
  find (fun w => prefix w s) ws.

(** Removes entries of [ws] from the front of [s] while one is there.
    Every entry is non-empty, so [length s] steps are enough. *)
Fixpoint stripFront (fuel : nat) (ws : list string) (s : string) : string :=
  match fuel with
  | O => s
  | S fuel' =>
      match leading ws s with
      | Some w =>
          stripFront fuel' ws
            (substring (String.length w) (String.length s - String.length w) s)
      | None => s
      end
  end.

Fixpoint revString (s : string) : string :=
  match s with
  | EmptyString => EmptyString
  | String c r => revString r ++ String c EmptyString
  end.

Definition trimStart (s : string) : string :=
  stripFront (String.length s) whiteSpace s.

Definition trimEnd (s : string) : string :=
  revString (stripFront (String.length s) (map revString whiteSpace) (revString s)).

(** [s.trim()]. *)
Definition trim (s : string) : string := trimEnd (trimStart s).

(** [!s] for a string: only the empty string is falsy. *)
Definition falsy (s : string) : bool :=
  match s with
  | EmptyString => true
  | String _ _ => false
  end.

(** Does [/\.(xlsx|xls|csv)$/i] match [s] from its first character through
    its end?  Without the [u] flag, case-insensitive matching never equates
    a character outside ASCII with an ASCII one, so folding [A]-[Z] is the
    whole comparison. *)
Definition matchesExtension (s : string) : bool :=
  let l := toLowerCase s in
  (l =? ".xlsx") || (l =? ".xls") || (l =? ".csv").

(** [s.replace(/\.(xlsx|xls|csv)$/i, EmptyString)]: the search tries the start
    positions from the left; at the first one where the pattern matches
    (necessarily up to the end of [s]) the match is removed. *)
Fixpoint replaceExtension (s : string) : string :=
  if matchesExtension s then EmptyString
  else match s with
       | EmptyString => EmptyString
       | String c r => String c (replaceExtension r)
       end.

End JS.

(** ** Data model *)

(** A cell of a parsed sheet ([any] in the source): the engine stores and
    copies cells and never inspects them. *)
Inductive Cell : Type :=
| CellText (s : string)
| CellNumber (z : Z)
| CellBool (b : bool)
| CellEmpty.

(** [UploadedFile] of [FileUploadPanel.tsx]. *)
Record UploadedFile : Type := mkUploadedFile {
  uf_name : string;
  uf_sheets : list string;
  uf_selectedSheet : string;
  uf_data : list (list Cell);
  uf_headers : list (option string);
  uf_rowCount : nat
}.

Inductive Role : Type := user | ai.

(** The [table] field of a message. *)
Record Table : Type := mkTable {
  t_headers : list (option string);
  t_rows : list (list Cell)
}.

(** [ChatMessage] of [ChatArea.tsx]; a [Date] is its time value. *)
Record ChatMessage : Type := mkChatMessage {
  m_id : string;
  m_role : Role;
  m_content : string;
  m_timestamp : Z;
  m_table : option Table
}.

(** [ChatSession] of [useChatEngine.ts]. *)
Record ChatSession : Type := mkChatSession {
  s_id : string;
  s_name : string;
  s_fileName : option string;
  s_timestamp : Z;
  s_messages : list ChatMessage;
  s_file : option UploadedFile
}.

(** What [generateMockResponse] returns. *)
Record Response : Type := mkResponse {
  r_content : string;
  r_table : option Table
}.

(** ** The response dispatcher *)

Import JS.

Definition uploadPrompt : Response :=
  {| r_content := "Please upload an Excel file first so I can analyze your data. Click the upload button in the sidebar or the attachment icon below to get started!";
     r_table := None |}.

Definition summaryResponse (file : UploadedFile) : Response :=
  {| r_content :=
       "Here's a summary of your data from **" ++ uf_name file
       ++ "** (Sheet: " ++ uf_selectedSheet file ++ "):" ++ nl ++ nl
       ++ "📊 **Dataset Overview**" ++ nl
       ++ "• Total Rows: " ++ numToString (uf_rowCount file) ++ nl
       ++ "• Total Columns: " ++ numToString (List.length (uf_headers file)) ++ nl
       ++ "• Columns: " ++ joinSparse ", " (uf_headers file) ++ nl ++ nl
       ++ "The data appears to be well-structured. You can ask me specific questions about any column or request calculations!";
     r_table := None |}.

Definition columnsResponse (file : UploadedFile) : Response :=
  {| r_content :=
       "Your dataset contains **" ++ numToString (List.length (uf_headers file))
       ++ " columns**:" ++ nl ++ nl
       ++ joinSparse nl
            (mapSparse (fun h i => numToString (i + 1) ++ ". **" ++ h ++ "**")
                       (uf_headers file))
       ++ nl ++ nl ++ "Would you like me to analyze any specific column?";
     r_table := None |}.

Definition rowsResponse (file : UploadedFile) : Response :=
  {| r_content :=
       "Your dataset contains **" ++ numToString (uf_rowCount file)
       ++ " rows** of data across **" ++ numToString (List.length (uf_headers file))
       ++ " columns** in the " ++ dq ++ uf_selectedSheet file ++ dq ++ " sheet.";
     r_table := None |}.

Definition previewResponse (file : UploadedFile) : Response :=
  let previewRows := slice 0 (Some 5%Z) (uf_data file) in
  {| r_content :=
       "Here's a preview of the first "
       ++ numToString (Nat.min 5 (List.length (uf_data file)))
       ++ " rows from your data:";
     r_table := Some {| t_headers := uf_headers file; t_rows := previewRows |} |}.

Definition lastResponse (file : UploadedFile) : Response :=
  let lastRows := slice (-5) None (uf_data file) in
  {| r_content :=
       "Here are the last "
       ++ numToString (Nat.min 5 (List.length (uf_data file)))
       ++ " rows from your data:";
     r_table := Some {| t_headers := uf_headers file; t_rows := lastRows |} |}.

Definition defaultResponse (file : UploadedFile) : Response :=
  {| r_content :=
       "Great question about your data! Based on the " ++ dq
       ++ uf_selectedSheet file ++ dq ++ " sheet in **" ++ uf_name file
       ++ "**, here's what I found:" ++ nl ++ nl
       ++ "📋 Your dataset has **" ++ numToString (uf_rowCount file)
       ++ " records** with columns: "
       ++ joinSparse ", " (slice 0 (Some 5%Z) (uf_headers file))
       ++ (if (5 <? List.length (uf_headers file))%nat
           then " and " ++ numToString (List.length (uf_headers file) - 5) ++ " more"
           else EmptyString)
       ++ "." ++ nl ++ nl
       ++ "Try asking me to:" ++ nl
       ++ "• " ++ dq ++ "Show me a summary" ++ dq ++ nl
       ++ "• " ++ dq ++ "Preview the first rows" ++ dq ++ nl
       ++ "• " ++ dq ++ "What columns are available?" ++ dq ++ nl
       ++ "• " ++ dq ++ "How many rows are there?" ++ dq;
     r_table := None |}.

(** [generateMockResponse(question, file)]: the chain of [if]s of the source,
    each [return] being one of the responses above. *)
Definition generateMockResponse (question : string) (file : option UploadedFile)
  : Response :=
  match file with
  | None => uploadPrompt
  | Some file =>
      let q := toLowerCase question in
      if includes q "summary" || includes q "overview" || includes q "describe"
      then summaryResponse file
      else if includes q "column" || includes q "header" || includes q "field"
      then columnsResponse file
      else if includes q "row" || includes q "count" || includes q "how many"
      then rowsResponse file
      else if includes q "show" || includes q "preview" || includes q "sample"
              || includes q "first"
      then previewResponse file
      else if includes q "last"
      then lastResponse file
      else defaultResponse file
  end.

(** *** The classification policy as the specification words it

    An ordered table of keyword sets, tried in sequence over the lower-cased
    question; the first set with a keyword the question contains decides. *)

Inductive Branch : Type :=
| NoDataset | Summary | Columns | Rows | Preview | Last | Default.

Definition spec_rules : list (Branch * list string) :=
  [ (Summary, ["summary"; "overview"; "describe"]);
    (Columns, ["column"; "header"; "field"]);
    (Rows, ["row"; "count"; "how many"]);
    (Preview, ["show"; "preview"; "sample"; "first"]);
    (Last, ["last"]) ].

Fixpoint spec_firstMatch (rules : list (Branch * list string)) (q : string)
  : Branch :=
  match rules with
  | [] => Default
  | (b, keywords) :: rest =>
      if existsb (includes q) keywords then b else spec_firstMatch rest q
  end.

Definition spec_classify (question : string) (file : option UploadedFile)
  : Branch :=
  match file with
  | None => NoDataset
  | Some _ => spec_firstMatch spec_rules (toLowerCase question)
  end.

(** The answer each branch of the policy gives. *)
Definition spec_answer (b : Branch) (file : option UploadedFile) : Response :=
  match file with
  | None => uploadPrompt
  | Some f =>
      match b with
      | NoDataset => uploadPrompt
      | Summary => summaryResponse f
      | Columns => columnsResponse f
      | Rows => rowsResponse f
      | Preview => previewResponse f
      | Last => lastResponse f
      | Default => defaultResponse f
      end
  end.

(** ** The session store of [useChatEngine] *)

(** The three [useState] cells of the hook. *)
Record State : Type := mkState {
  sessions : list ChatSession;
  activeSessionId : string;
  isTyping : bool
}.

(** The closure handed to [setTimeout] by [sendMessage]: it holds the
    [activeSessionId] and the [content] of the call that created it. *)
Record Pending : Type := mkPending {
  p_activeSessionId : string;
  p_content : string
}.

Definition setSessions (f : list ChatSession -> list ChatSession) (st : State)
  : State :=
  {| sessions := f (sessions st);
     activeSessionId := activeSessionId st;
     isTyping := isTyping st |}.

Definition setActiveSessionId (id : string) (st : State) : State :=
  {| sessions := sessions st; activeSessionId := id; isTyping := isTyping st |}.

Definition setIsTyping (b : bool) (st : State) : State :=
  {| sessions := sessions st; activeSessionId := activeSessionId st; isTyping := b |}.

(** The state of the first render. *)
Definition initialState (now : Z) : State :=
  {| sessions :=
       [ {| s_id := "default"; s_name := "Welcome Chat"; s_fileName := None;
            s_timestamp := now; s_messages := []; s_file := None |} ];
     activeSessionId := "default";
     isTyping := false |}.

(** [sessions.find((s) => s.id === activeSessionId) || sessions[0]];
    [None] stands for [undefined], which only an empty collection gives. *)
Definition activeSession (st : State) : option ChatSession :=
  match find (fun s => s_id s =? activeSessionId st) (sessions st) with
  | Some s => Some s
  | None => hd_error (sessions st)
  end.

Definition updateSession (id : string) (updater : ChatSession -> ChatSession)
  (st : State) : State :=
  setSessions (map (fun s => if s_id s =? id then updater s else s)) st.

(** [{ ...s, messages: [...s.messages, msg] }]. *)
Definition withMessage (msg : ChatMessage) (s : ChatSession) : ChatSession :=
  {| s_id := s_id s; s_name := s_name s; s_fileName := s_fileName s;
     s_timestamp := s_timestamp s;
     s_messages := (s_messages s ++ [msg])%list;
     s_file := s_file s |}.

(** The session [createNewChat] and the fallback of [deleteSession] build. *)
Definition newChat (id : string) (now : Z) : ChatSession :=
  {| s_id := id; s_name := "New Chat"; s_fileName := None; s_timestamp := now;
     s_messages := []; s_file := None |}.

Definition createNewChat (newId : string) (now : Z) (st : State) : State :=
  let newSession := newChat newId now in
  setActiveSessionId newId (setSessions (fun prev => newSession :: prev) st).

(** [deleteSession(id)].  [freshId] and [now] are what [generateId()] and
    [new Date()] would give; only the fallback reads them. *)
Definition deleteSession (id : string) (freshId : string) (now : Z) (st : State)
  : State :=
  let filtered := filter (fun s => negb (s_id s =? id)) (sessions st) in
  match filtered with
  | [] =>
      let fallback := newChat freshId now in
      setActiveSessionId (s_id fallback) (setSessions (fun _ => [fallback]) st)
  | first :: _ =>
      let st' := setSessions (fun _ => filtered) st in
      if activeSessionId st =? id
      then setActiveSessionId (s_id first) st'
      else st'
  end.

(** The content of the message [setFile] posts. *)
Definition fileLoadedContent (file : UploadedFile) : string :=
  "📁 **" ++ uf_name file ++ "** loaded successfully!" ++ nl ++ nl
  ++ "• Sheet: **" ++ uf_selectedSheet file ++ "**" ++ nl
  ++ "• Rows: **" ++ numToString (uf_rowCount file) ++ "**" ++ nl
  ++ "• Columns: **" ++ numToString (List.length (uf_headers file)) ++ "** ("
  ++ joinSparse ", " (slice 0 (Some 4%Z) (uf_headers file))
  ++ (if (4 <? List.length (uf_headers file))%nat then "..." else EmptyString)
  ++ ")" ++ nl ++ nl
  ++ "I'm ready to analyze your data. What would you like to know?".

Definition setFile (file : UploadedFile) (msgId : string) (now : Z) (st : State)
  : State :=
  let sysMsg :=
    {| m_id := msgId; m_role := ai; m_content := fileLoadedContent file;
       m_timestamp := now; m_table := None |} in
  updateSession (activeSessionId st)
    (fun s =>
       {| s_id := s_id s;
          s_name := replaceExtension (uf_name file);
          s_fileName := Some (uf_name file);
          s_timestamp := s_timestamp s;
          s_messages := (s_messages s ++ [sysMsg])%list;
          s_file := Some file |})
    st.

(** [sendMessage(content)] up to and including the call of [setTimeout]:
    the next state and the scheduled callback. *)
Definition sendMessage (content : string) (msgId : string) (now : Z) (st : State)
  : State * Pending :=
  let userMsg :=
    {| m_id := msgId; m_role := user; m_content := content;
       m_timestamp := now; m_table := None |} in
  let st1 := updateSession (activeSessionId st) (withMessage userMsg) st in
  (setIsTyping true st1,
   {| p_activeSessionId := activeSessionId st; p_content := content |}).

(** [session?.file || null]. *)
Definition fileOf (session : option ChatSession) : option UploadedFile :=
  match session with
  | Some s => s_file s
  | None => None
  end.

(** The reply the callback builds from a response. *)
Definition aiMessage (msgId : string) (now : Z) (response : Response)
  : ChatMessage :=
  {| m_id := msgId; m_role := ai; m_content := r_content response;
     m_timestamp := now; m_table := r_table response |}.

(** The callback of [setTimeout], run on the state [st] of the moment the
    timer fires. *)
Definition sendMessage_timeout (p : Pending) (msgId : string) (now : Z)
  (st : State) : State :=
  let st1 :=
    setSessions
      (fun prev =>
         let session := find (fun s => s_id s =? p_activeSessionId p) prev in
         let response := generateMockResponse (p_content p) (fileOf session) in
         let aiMsg := aiMessage msgId now response in
         map (fun s => if s_id s =? p_activeSessionId p
                       then withMessage aiMsg s else s) prev)
      st in
  setIsTyping false st1.

(** ** [handleSend] of the chat area

    The text box ([input]) is the handler's own state; the store is reached
    through [onSendMessage], which is [sendMessage]. *)
Definition handleSend (input : string) (msgId : string) (now : Z) (st : State)
  : string * State * option Pending :=
  let trimmed := trim input in
  if falsy trimmed then (input, st, None)
  else
    let '(st', p) := sendMessage trimmed msgId now st in
    (EmptyString, st', Some p).

(** A string made of white space only: a concatenation of entries of
    [whiteSpace]. *)
Definition blank (ws : list string) : string :=
  fold_right append EmptyString ws.

(** ** Runs of the store *)

(** One call on the store, with what the environment supplies to it. *)
Inductive Op : Type :=
| OpCreateNewChat (newId : string) (now : Z)
| OpSetActiveSessionId (id : string)
| OpDeleteSession (id freshId : string) (now : Z)
| OpSetFile (file : UploadedFile) (msgId : string) (now : Z)
| OpSendMessage (content msgId : string) (now : Z)
| OpTimeout (p : Pending) (msgId : string) (now : Z).

Definition step (o : Op) (st : State) : State :=
  match o with
  | OpCreateNewChat newId now => createNewChat newId now st
  | OpSetActiveSessionId id => setActiveSessionId id st
  | OpDeleteSession id freshId now => deleteSession id freshId now st
  | OpSetFile file msgId now => setFile file msgId now st
  | OpSendMessage content msgId now => fst (sendMessage content msgId now st)
  | OpTimeout p msgId now => sendMessage_timeout p msgId now st
  end.

Definition sessionIds (st : State) : list string := map s_id (sessions st).

(** What the callers guarantee: a generated session id is new, and the
    sidebar selects only a session it lists. *)
Definition admissible (o : Op) (st : State) : Prop :=
  match o with
  | OpCreateNewChat newId _ => ~ In newId (sessionIds st)
  | OpSetActiveSessionId id => In id (sessionIds st)
  | _ => True
  end.

Inductive reachable : State -> Prop :=
| reachable_initial : forall now, reachable (initialState now)
| reachable_step : forall o st,
    reachable st -> admissible o st -> reachable (step o st).

(** The sessions whose id is [activeSessionId]. *)
Definition activeSessions (st : State) : list ChatSession :=
  filter (fun s => s_id s =? activeSessionId st) (sessions st).

Definition wellFormed (st : State) : Prop :=
  NoDup (sessionIds st) /\ In (activeSessionId st) (sessionIds st).

(** ** What the hook returns *)

(** An entry of the [sessions] projection: [{ id, name, fileName, timestamp }]. *)
Record SessionInfo : Type := mkSessionInfo {
  si_id : string;
  si_name : string;
  si_fileName : option string;
  si_timestamp : Z
}.

Record View : Type := mkView {
  v_sessions : list SessionInfo;
  v_activeSessionId : string;
  v_activeMessages : list ChatMessage;
  v_currentFile : option UploadedFile;
  v_isTyping : bool
}.

(** The object [useChatEngine] returns, without its callbacks.  [None] is the
    [TypeError] of reading [activeSession.messages] when [activeSession] is
    [undefined]. *)
Definition view (st : State) : option View :=
  match activeSession st with
  | None => None
  | Some active =>
      Some {| v_sessions :=
                map (fun s => {| si_id := s_id s; si_name := s_name s;
                                 si_fileName := s_fileName s;
                                 si_timestamp := s_timestamp s |})
                    (sessions st);
              v_activeSessionId := activeSessionId st;
              v_activeMessages := s_messages active;
              v_currentFile := s_file active;
              v_isTyping := isTyping st |}
  end.

(** ** The upload panel ([FileUploadPanel.tsx]) *)

(** A workbook as the panel uses it: its [SheetNames], and for a sheet name
    the rows [XLSX.utils.sheet_to_json(workbook.Sheets[name], { header: 1 })]
    gives. *)
Record WorkBook : Type := mkWorkBook {
  SheetNames : list string;
  sheetToJson : string -> list (list Cell)
}.

Record ParsedFile : Type := mkParsedFile {
  pf_name : string;
  pf_workbook : WorkBook;
  pf_sheets : list string
}.

(** The [useState] cells of the panel the handlers below touch.
    [selectedSheet = None] is [undefined], which [sheets[0]] gives for a
    workbook without sheets. *)
Record PanelState : Type := mkPanelState {
  parsedFile : option ParsedFile;
  selectedSheet : option string;
  error : string;
  isProcessing : bool
}.

(** [!selectedSheet]. *)
Definition noSheet (sel : option string) : bool :=
  match sel with
  | None => true
  | Some name => falsy name
  end.

(** [processFile(file)] up to [reader.readAsArrayBuffer(file)]. *)
Definition processFile_start (ps : PanelState) : PanelState :=
  {| parsedFile := parsedFile ps; selectedSheet := selectedSheet ps;
     error := EmptyString; isProcessing := true |}.

(** [reader.onload] of [processFile(file)]: [read] is what [XLSX.read] gives,
    [None] when it throws. *)
Definition processFile_onload (fileName : string) (read : option WorkBook)
  (ps : PanelState) : PanelState :=
  match read with
  | Some workbook =>
      let sheets := SheetNames workbook in
      {| parsedFile := Some {| pf_name := fileName; pf_workbook := workbook;
                               pf_sheets := sheets |};
         selectedSheet := hd_error sheets;
         error := error ps;
         isProcessing := false |}
  | None =>
      {| parsedFile := parsedFile ps; selectedSheet := selectedSheet ps;
         error := "Failed to parse the file. Please ensure it's a valid Excel file.";
         isProcessing := false |}
  end.

(** The click on an entry of the sheet selector, as far as these cells go. *)
Definition selectSheet (sheet : string) (ps : PanelState) : PanelState :=
  {| parsedFile := parsedFile ps; selectedSheet := Some sheet;
     error := error ps; isProcessing := isProcessing ps |}.

Definition handleReset (ps : PanelState) : PanelState :=
  {| parsedFile := None; selectedSheet := Some EmptyString;
     error := EmptyString; isProcessing := isProcessing ps |}.

Section Confirm.

(** The unchecked cast [jsonData[0] as string[]]: how the cells of the first
    row read as strings, an empty cell being a hole. *)
Variable asStrings : list Cell -> list (option string).

(** [handleConfirm()]: the next state of the panel, and the file passed to
    [onFileUploaded] when the handler gets that far (it then also calls
    [onClose]). *)
Definition handleConfirm (ps : PanelState) : PanelState * option UploadedFile :=
  match parsedFile ps with
  | None => (ps, None)
  | Some parsed =>
      if noSheet (selectedSheet ps) then (ps, None)
      else
        match selectedSheet ps with
        | None => (ps, None)
        | Some sheetName =>
            let jsonData := sheetToJson (pf_workbook parsed) sheetName in
            let headers := match hd_error jsonData with
                           | Some row => asStrings row
                           | None => []
                           end in
            let dataRows := slice 1 None jsonData in
            ({| parsedFile := None; selectedSheet := Some EmptyString;
                error := error ps; isProcessing := isProcessing ps |},
             Some {| uf_name := pf_name parsed;
                     uf_sheets := pf_sheets parsed;
                     uf_selectedSheet := sheetName;
                     uf_data := dataRows;
                     uf_headers := headers;
                     uf_rowCount := List.length dataRows |})
        end
  end.

(** The page ([Index]) passes [setFile] as [onFileUploaded]: a confirmed
    upload reaches the store, anything else leaves it alone. *)
Definition confirmUpload (msgId : string) (now : Z)
  (ps : PanelState) (st : State) : PanelState * State :=
  match handleConfirm ps with
  | (ps', Some file) => (ps', setFile file msgId now st)
  | (ps', None) => (ps', st)
  end.

End Confirm.

(** ** Descriptions used in the statements *)

(** [digits] is the decimal numeral of [n]: the digits, most significant
    first, without leading zero, as the library of numerals reads them. *)
Definition isDecimalOf (n : nat) (digits : string) : Prop :=
  NilZero.uint_of_string digits = Some (Nat.to_uint n).

(** The first four headers as the announcement of a file shows them: joined
    by a comma and a space, a hole showing nothing, with three dots when
    there are more than four. *)
Definition spec_firstFourHeaders (headers : list (option string)) : string :=
  match map elementText headers with
  | [] => EmptyString
  | [a] => a
  | [a; b] => a ++ ", " ++ b
  | [a; b; c] => a ++ ", " ++ b ++ ", " ++ c
  | [a; b; c; d] => a ++ ", " ++ b ++ ", " ++ c ++ ", " ++ d
  | a :: b :: c :: d :: _ :: _ =>
      a ++ ", " ++ b ++ ", " ++ c ++ ", " ++ d ++ "..."
  end.

(** The lines of the list of columns: a header at position [i], counted from
    1, is written [i. **header**]; a hole leaves its line empty. *)
Fixpoint spec_columnLines (position : nat) (headers : list (option string))
  : list string :=
  match headers with
  | [] => []
  | Some h :: rest =>
      (numToString position ++ ". **" ++ h ++ "**")
        :: spec_columnLines (S position) rest
  | None :: rest => EmptyString :: spec_columnLines (S position) rest
  end.

(** A message, a session and a state without what the environment supplies
    to a reply: the generated id and the time of a message. *)
Definition messageText (m : ChatMessage) : Role * string * option Table :=
  (m_role m, m_content m, m_table m).

Definition sessionText (s : ChatSession)
  : string * string * option string * Z * option UploadedFile
    * list (Role * string * option Table) :=
  (s_id s, s_name s, s_fileName s, s_timestamp s, s_file s,
   map messageText (s_messages s)).

Definition stateText (st : State)
  : list (string * string * option string * Z * option UploadedFile
          * list (Role * string * option Table)) * string * bool :=
  (map sessionText (sessions st), activeSessionId st, isTyping st).

(** ** Visible text *)

(** A printable ASCII character other than the space. *)
Definition visible (c : ascii) : bool :=
  ((33 <=? nat_of_ascii c)%nat && (nat_of_ascii c <=? 126)%nat)%bool.

(** The text starts with a visible character. *)
Definition startsVisible (s : string) : bool :=
  match s with
  | EmptyString => false
  | String c _ => visible c
  end.

(** The text ends with a visible character. *)
Definition endsVisible (s : string) : bool := startsVisible (revString s).

(** ** Sample data for the examples *)

(** A reading of the cast [as string[]] for a row of text cells. *)
Definition textCells (row : list Cell) : list (option string) :=
  map (fun c => match c with
                | CellText t => Some t
                | CellEmpty => None
                | _ => Some EmptyString
                end) row.

Definition sampleBook : WorkBook :=
  {| SheetNames := ["Sales"; "Costs"];
     sheetToJson := fun name =>
       if name =? "Sales"
       then [ [CellText "region"; CellText "total"];
              [CellText "north"; CellNumber 10];
              [CellText "south"; CellNumber 20] ]
       else [] |}.

Definition emptyPanel : PanelState :=
  {| parsedFile := None; selectedSheet := Some EmptyString;
     error := EmptyString; isProcessing := false |}.

(** The panel after [sampleBook] was read from a file named Q3.xlsx. *)
Definition samplePanel : PanelState :=
  processFile_onload "Q3.xlsx" (Some sampleBook) (processFile_start emptyPanel).

Definition sampleFile : UploadedFile :=
  {| uf_name := "Q3.xlsx"; uf_sheets := ["Sales"; "Costs"];
     uf_selectedSheet := "Sales";
     uf_data := [ [CellText "north"; CellNumber 10];
                  [CellText "south"; CellNumber 20] ];
     uf_headers := [Some "region"; Some "total"];
     uf_rowCount := 2 |}.

(** * Properties *)

(** ** Strings and arrays *)

Section StringFacts.

Lemma prefix_append (k rest : string) : prefix k (k ++ rest) = true.
Proof.
  induction k as [|c k IH]; simpl.
  - destruct rest; reflexivity.
  - destruct (ascii_dec c c) as [_|ne]; [exact IH | now elim ne].
Qed.

Lemma includes_here (k rest : string) : includes (k ++ rest) k = true.
Proof.
  assert (U : forall s, prefix k s = true -> includes s k = true).
  { intros s H. destruct s; cbn [includes]; now rewrite H. }
  apply U, prefix_append.
Qed.

Lemma includes_skip (a r k : string) :
  includes r k = true -> includes (a ++ r) k = true.
Proof.
  intros H. induction a as [|c a IH]; cbn [append]; [exact H|].
  cbn [includes]. rewrite IH. now destruct (prefix k (String c (a ++ r))).
Qed.

Lemma substring_all (s : string) : substring 0 (String.length s) s = s.
Proof. induction s as [|c s IH]; simpl; [reflexivity | now rewrite IH]. Qed.

Lemma append_empty_r (s : string) : s ++ EmptyString = s.
Proof. induction s as [|c s IH]; simpl; [reflexivity | now rewrite IH]. Qed.

Lemma append_assoc (a b c : string) : (a ++ b) ++ c = a ++ b ++ c.
Proof. induction a as [|x a IH]; simpl; [reflexivity | now rewrite IH]. Qed.

Lemma length_append (a b : string) :
  String.length (a ++ b) = String.length a + String.length b.
Proof. induction a as [|x a IH]; simpl; [reflexivity | now rewrite IH]. Qed.

Lemma toLowerCase_append (a b : string) :
  toLowerCase (a ++ b) = toLowerCase a ++ toLowerCase b.
Proof. induction a as [|x a IH]; simpl; [reflexivity | now rewrite IH]. Qed.

Lemma toLowerCase_length (s : string) :
  String.length (toLowerCase s) = String.length s.
Proof. induction s as [|c s IH]; simpl; [reflexivity | now rewrite IH]. Qed.

End StringFacts.

Lemma prefix_same_head (a k s : string) :
  prefix k s = true -> prefix (a ++ k) (a ++ s) = true.
Proof.
  intros H. induction a as [|c a IH]; [exact H|].
  cbn [append prefix]. destruct (ascii_dec c c) as [_|N]; [exact IH|].
  now elim N.
Qed.

Lemma prefix_includes (s k : string) :
  prefix k s = true -> includes s k = true.
Proof. intros H. destruct s; cbn [includes]; now rewrite H. Qed.

(** Finds consecutive pieces [k1 ++ ... ++ kn] in a chain of appended
    pieces. *)
Ltac prefix_pieces :=
  first [ apply prefix_append | apply prefix_same_head; prefix_pieces ].

Ltac seek_pieces :=
  first [ apply prefix_includes; solve [prefix_pieces]
        | apply includes_skip; seek_pieces ].

Section SliceFacts.

Context {A : Type}.
Implicit Types xs : list A.

(** [xs.slice(0, n)] keeps the first [n] elements. *)
Lemma slice_from_start (n : nat) xs :
  slice 0 (Some (Z.of_nat n)) xs = firstn (Nat.min n (List.length xs)) xs.
Proof.
  unfold slice, clampIndex.
  replace (0 <? 0)%Z with false by reflexivity.
  destruct (Z.of_nat n <? 0)%Z eqn:E; [apply Z.ltb_lt in E; lia|].
  replace (Z.min 0 (Z.of_nat (List.length xs))) with 0%Z by lia.
  cbn [Z.to_nat skipn]. f_equal. lia.
Qed.

(** [xs.slice(-n)] keeps the last [n] elements, in their order. *)
Lemma slice_from_end (n : nat) xs :
  (0 < n)%nat ->
  slice (- Z.of_nat n) None xs = skipn (List.length xs - Nat.min n (List.length xs)) xs.
Proof.
  intros Hn. unfold slice, clampIndex.
  destruct (- Z.of_nat n <? 0)%Z eqn:E; [|apply Z.ltb_ge in E; lia].
  replace (Z.to_nat (Z.max (Z.of_nat (List.length xs) + - Z.of_nat n) 0))
    with (List.length xs - Nat.min n (List.length xs))%nat by lia.
  apply firstn_all2. rewrite length_skipn. lia.
Qed.

Lemma firstn_min_length (n : nat) xs :
  firstn (Nat.min n (List.length xs)) xs = firstn n xs.
Proof.
  destruct (Nat.le_ge_cases n (List.length xs)) as [H|H].
  - now rewrite Nat.min_l.
  - rewrite Nat.min_r by exact H. now rewrite firstn_all, firstn_all2.
Qed.

End SliceFacts.

(** ** The dispatcher follows the classification policy *)

Lemma generateMockResponse_classify (question : string) (file : option UploadedFile) :
  generateMockResponse question file
  = spec_answer (spec_classify question file) file.
Proof.
  destruct file as [f|]; [|reflexivity].
  unfold generateMockResponse, spec_classify, spec_rules.
  generalize (toLowerCase question) as q; intros q.
  cbn [spec_firstMatch existsb].
  repeat match goal with
         | |- context [includes q ?k] =>
             destruct (includes q k); cbn [orb spec_answer]
         end; reflexivity.
Qed.

(** C3: the dispatcher answers with the branch the ordered keyword table
    selects (no dataset first, then the five keyword sets in their order, then
    the default), so the first matching rule alone decides; a question that
    contains both "summary" and "preview" gets the summary, which carries no
    table. *)
Theorem dispatcher_first_match_wins (question : string) (file : option UploadedFile) :
  generateMockResponse question file
  = spec_answer (spec_classify question file) file
  /\ (forall f,
        file = Some f ->
        includes (toLowerCase question) "summary" = true ->
        includes (toLowerCase question) "preview" = true ->
        spec_classify question file = Summary
        /\ generateMockResponse question file = summaryResponse f
        /\ r_table (generateMockResponse question file) = None).
Proof.
  split; [apply generateMockResponse_classify|].
  intros f -> Hs _.
  assert (C : spec_classify question (Some f) = Summary).
  { unfold spec_classify, spec_rules. cbn [spec_firstMatch existsb].
    now rewrite Hs. }
  rewrite generateMockResponse_classify, C. repeat split.
Qed.

Lemma dispatcher_first_match_wins_witness :
  generateMockResponse "Preview a SUMMARY"
    (Some (mkUploadedFile "a.csv" ["a"] "a" [[CellNumber 1]] [Some "h"] 1))
  = summaryResponse (mkUploadedFile "a.csv" ["a"] "a" [[CellNumber 1]] [Some "h"] 1).
Proof.
  apply (dispatcher_first_match_wins "Preview a SUMMARY"
           (Some (mkUploadedFile "a.csv" ["a"] "a" [[CellNumber 1]] [Some "h"] 1)));
    reflexivity.
Defined.

(** ** Row slicing of the preview and last branches *)

(** C5: for a dataset whose [rowCount] is the number of its rows, a question
    the policy sends to the preview branch gets a table with the dataset's
    headers and exactly its first min(5, rowCount) rows, and one sent to the
    last branch gets exactly its last min(5, rowCount) rows, a suffix of the
    rows in their order; with at most 5 rows (3, say) both tables hold all of
    them. *)
Theorem preview_and_last_rows (question : string) (file : UploadedFile) :
  uf_rowCount file = List.length (uf_data file) ->
  let shown := Nat.min 5 (uf_rowCount file) in
  let head := firstn shown (uf_data file) in
  let tail := skipn (uf_rowCount file - shown) (uf_data file) in
  (spec_classify question (Some file) = Preview ->
   r_table (generateMockResponse question (Some file))
   = Some {| t_headers := uf_headers file; t_rows := head |})
  /\ (spec_classify question (Some file) = Last ->
      r_table (generateMockResponse question (Some file))
      = Some {| t_headers := uf_headers file; t_rows := tail |})
  /\ List.length head = shown
  /\ List.length tail = shown
  /\ (exists before, uf_data file = (before ++ tail)%list)
  /\ (uf_rowCount file <= 5 -> head = uf_data file /\ tail = uf_data file).
Proof.
  intros Hcount shown head tail. subst shown head tail. rewrite Hcount.
  repeat split.
  - intros C. rewrite generateMockResponse_classify, C.
    cbn [spec_answer]. unfold previewResponse. cbn [r_table].
    do 2 f_equal. exact (slice_from_start 5 (uf_data file)).
  - intros C. rewrite generateMockResponse_classify, C.
    cbn [spec_answer]. unfold lastResponse. cbn [r_table].
    do 2 f_equal. apply (slice_from_end 5 (uf_data file)). lia.
  - rewrite length_firstn. lia.
  - rewrite length_skipn. lia.
  - exists (firstn (List.length (uf_data file)
                    - Nat.min 5 (List.length (uf_data file))) (uf_data file)).
    symmetry. apply firstn_skipn.
  - rewrite Nat.min_r by exact H. apply firstn_all.
  - rewrite Nat.min_r by exact H. now rewrite Nat.sub_diag.
Qed.

Lemma preview_and_last_rows_witness :
  r_table (generateMockResponse "preview"
             (Some (mkUploadedFile "t.csv" ["t"] "t"
                      (map (fun n => [CellNumber (Z.of_nat n)]) (seq 1 12))
                      [Some "n"] 12)))
  = Some {| t_headers := [Some "n"];
            t_rows := map (fun n => [CellNumber (Z.of_nat n)]) (seq 1 5) |}.
Proof.
  apply (preview_and_last_rows "preview"
           (mkUploadedFile "t.csv" ["t"] "t"
              (map (fun n => [CellNumber (Z.of_nat n)]) (seq 1 12)) [Some "n"] 12));
    reflexivity.
Defined.

(** The same on the examples of the specification: 12 rows and 3 rows. *)
Example last_of_twelve :
  r_table (generateMockResponse "last"
             (Some (mkUploadedFile "t.csv" ["t"] "t"
                      (map (fun n => [CellNumber (Z.of_nat n)]) (seq 1 12))
                      [Some "n"] 12)))
  = Some {| t_headers := [Some "n"];
            t_rows := map (fun n => [CellNumber (Z.of_nat n)]) (seq 8 5) |}.
Proof. reflexivity. Qed.

Example preview_and_last_of_three :
  let file := mkUploadedFile "t.csv" ["t"] "t"
                [[CellText "a"]; [CellText "b"]; [CellText "c"]] [Some "n"] 3 in
  r_table (generateMockResponse "preview" (Some file))
  = Some {| t_headers := [Some "n"]; t_rows := uf_data file |}
  /\ r_table (generateMockResponse "last" (Some file))
     = Some {| t_headers := [Some "n"]; t_rows := uf_data file |}.
Proof. split; reflexivity. Qed.

(** The policy decides on the first match: the question the default answer
    itself suggests mentions "row" and so never reaches the preview. *)
Example suggested_preview_question_counts_rows :
  spec_classify "Preview the first rows"
    (Some (mkUploadedFile "t.csv" ["t"] "t" [] [] 0)) = Rows.
Proof. reflexivity. Qed.

(** ** Updating sessions by id *)

Section UpdateById.

Variable id : string.
Variable g : ChatSession -> ChatSession.

(** The function [prev.map((s) => s.id === id ? g(s) : s)]. *)
Let upd (s : ChatSession) : ChatSession := if s_id s =? id then g s else s.

Lemma update_absent (l : list ChatSession) :
  ~ In id (map s_id l) -> map upd l = l.
Proof.
  induction l as [|a l IH]; intros H; [reflexivity|].
  cbn [map] in *. rewrite IH by (intros C; apply H; now right).
  unfold upd. destruct (String.eqb_spec (s_id a) id) as [E|_]; [|reflexivity].
  elim H. now left.
Qed.

Lemma update_ids (l : list ChatSession) :
  (forall s, s_id (g s) = s_id s) -> map s_id (map upd l) = map s_id l.
Proof.
  intros Hg. induction l as [|a l IH]; [reflexivity|].
  cbn [map]. rewrite IH. f_equal. unfold upd.
  destruct (s_id a =? id); [apply Hg | reflexivity].
Qed.

(** With distinct ids, the one session named [id] is the one [find] returns
    and the only one [map] changes. *)
Lemma update_unique (l : list ChatSession) (s : ChatSession) :
  NoDup (map s_id l) -> In s l -> s_id s = id ->
  exists before behind,
    l = (before ++ s :: behind)%list
    /\ find (fun x => s_id x =? id) l = Some s
    /\ map upd l = (before ++ g s :: behind)%list.
Proof.
  intros Hnd Hin Hid.
  destruct (in_split _ _ Hin) as (before & behind & ->).
  exists before, behind.
  rewrite map_app in Hnd. cbn [map] in Hnd.
  assert (Hb : ~ In id (map s_id before)).
  { intros C. apply NoDup_remove_2 in Hnd. apply Hnd, in_or_app.
    left. now rewrite Hid. }
  assert (Ha : ~ In id (map s_id behind)).
  { intros C. apply NoDup_remove_2 in Hnd. apply Hnd, in_or_app.
    right. now rewrite Hid. }
  repeat split.
  - clear Hnd Hin Ha. induction before as [|b before IH]; cbn [app find].
    + now rewrite Hid, String.eqb_refl.
    + destruct (String.eqb_spec (s_id b) id) as [E|_].
      * elim Hb. now left.
      * apply IH. intros C. apply Hb. now right.
  - rewrite map_app. cbn [map].
    rewrite (update_absent before Hb), (update_absent behind Ha).
    unfold upd at 1. now rewrite Hid, String.eqb_refl.
Qed.

End UpdateById.

Lemma filter_keeps_all {A} (p : A -> bool) (l : list A) :
  (forall x, In x l -> p x = true) -> filter p l = l.
Proof.
  induction l as [|a l IH]; intros H; [reflexivity|].
  cbn [filter]. rewrite (H a) by now left.
  rewrite IH; [reflexivity|]. intros x Hx. apply H. now right.
Qed.

Lemma NoDup_ids_filter (p : ChatSession -> bool) (l : list ChatSession) :
  NoDup (map s_id l) -> NoDup (map s_id (filter p l)).
Proof.
  induction l as [|a l IH]; intros H; [constructor|].
  cbn [map] in H. inversion H as [|? ? Hnot Hrest]; subst.
  cbn [filter]. destruct (p a); [|now apply IH].
  cbn [map]. constructor; [|now apply IH].
  intros C. apply Hnot. apply in_map_iff in C as (x & Hx & Hin).
  apply in_map_iff. exists x. split; [exact Hx|].
  now apply filter_In in Hin.
Qed.

(** Among sessions with distinct ids, an id that occurs names one session. *)
Lemma one_session_per_id (id : string) (l : list ChatSession) :
  NoDup (map s_id l) -> In id (map s_id l) ->
  List.length (filter (fun s => s_id s =? id) l) = 1.
Proof.
  induction l as [|a l IH]; intros Hnd Hin; [destruct Hin|].
  cbn [map] in *. inversion Hnd as [|? ? Hnot Hrest]; subst.
  cbn [filter]. destruct (String.eqb_spec (s_id a) id) as [E|N].
  - cbn [List.length]. f_equal.
    replace (filter (fun s => s_id s =? id) l) with (@nil ChatSession);
      [reflexivity|].
    symmetry. clear IH Hnd Hin Hrest. subst id.
    induction l as [|b l IH]; [reflexivity|].
    cbn [filter map] in *.
    destruct (String.eqb_spec (s_id b) (s_id a)) as [E|_].
    + elim Hnot. now left.
    + apply IH. intros C. apply Hnot. now right.
  - apply IH; [exact Hrest|]. destruct Hin as [E|Hin]; [now elim N | exact Hin].
Qed.

(** ** The invariant of the store *)

Lemma deleteSession_removes (id freshId : string) (now : Z) (st : State) :
  freshId <> id -> ~ In id (sessionIds (deleteSession id freshId now st)).
Proof.
  intros Hfresh. unfold deleteSession, sessionIds.
  destruct (filter (fun s => negb (s_id s =? id)) (sessions st))
    as [|first rest] eqn:F.
  - cbn. intros [E|[]]. now apply Hfresh.
  - assert (H : ~ In id (map s_id (first :: rest))).
    { rewrite <- F. intros C. apply in_map_iff in C as (x & Hx & Hin).
      apply filter_In in Hin as [_ Hin]. rewrite Hx, String.eqb_refl in Hin.
      discriminate. }
    destruct (activeSessionId st =? id); exact H.
Qed.

Lemma step_wellFormed (o : Op) (st : State) :
  wellFormed st -> admissible o st -> wellFormed (step o st).
Proof.
  unfold wellFormed, sessionIds. intros [Hnd Hact] Hadm.
  destruct o as [newId now|id|id freshId now|file msgId now|content msgId now
                |p msgId now]; cbn [step admissible] in *.
  - cbn. split; [now constructor | now left].
  - cbn. split; assumption.
  - unfold deleteSession.
    destruct (filter (fun s => negb (s_id s =? id)) (sessions st))
      as [|first rest] eqn:F.
    + cbn. split; [constructor; [intros []|constructor] | now left].
    + assert (Hnd' : NoDup (map s_id (first :: rest))).
      { rewrite <- F. now apply NoDup_ids_filter. }
      destruct (String.eqb_spec (activeSessionId st) id) as [E|N].
      * cbn. split; [exact Hnd' | now left].
      * cbn [setSessions sessions activeSessionId]. split; [exact Hnd'|].
        rewrite <- F. apply in_map_iff in Hact as (x & Hx & Hin).
        apply in_map_iff. exists x. split; [exact Hx|].
        apply filter_In. split; [exact Hin|].
        rewrite Hx. now destruct (String.eqb_spec (activeSessionId st) id).
  - unfold setFile, updateSession. cbn [setSessions sessions activeSessionId].
    rewrite update_ids by reflexivity. split; assumption.
  - unfold sendMessage, updateSession.
    cbn [fst setIsTyping setSessions sessions activeSessionId].
    rewrite update_ids by reflexivity. split; assumption.
  - unfold sendMessage_timeout.
    cbn [setIsTyping setSessions sessions activeSessionId].
    rewrite update_ids by reflexivity. split; assumption.
Qed.

Lemma reachable_wellFormed (st : State) : reachable st -> wellFormed st.
Proof.
  induction 1 as [now|o st _ IH Hadm].
  - split; cbn; [constructor; [intros []|constructor] | now left].
  - now apply step_wellFormed.
Qed.

Lemma wellFormed_nonempty (st : State) : wellFormed st -> sessions st <> [].
Proof.
  intros [_ Hin] E. unfold sessionIds in Hin. rewrite E in Hin. destruct Hin.
Qed.

(** C2: in every state the store reaches (from the first render, by any of its
    operations and by timers firing, a generated session id being new and a
    selected id being listed) the collection is not empty and exactly one
    session carries the active id; deleting the only session leaves exactly one
    session, the fresh "New Chat" without messages or file, and it is the
    active one. *)
Theorem one_active_session_always (st : State) :
  reachable st ->
  sessions st <> []
  /\ List.length (activeSessions st) = 1
  /\ (forall s freshId now,
        sessions st = [s] ->
        let st' := deleteSession (s_id s) freshId now st in
        sessions st' = [newChat freshId now]
        /\ List.length (sessions st') = 1
        /\ s_file (newChat freshId now) = None
        /\ s_messages (newChat freshId now) = []
        /\ activeSessionId st' = freshId
        /\ activeSessions st' = [newChat freshId now]).
Proof.
  intros R. apply reachable_wellFormed in R.
  split; [now apply wellFormed_nonempty|].
  split; [destruct R; now apply one_session_per_id|].
  intros s freshId now E st'. subst st'. unfold deleteSession, activeSessions.
  rewrite E. cbn [filter]. rewrite String.eqb_refl. cbn.
  rewrite String.eqb_refl. repeat split.
Qed.

Lemma one_active_session_always_witness :
  sessions (initialState 0) <> []
  /\ List.length (activeSessions (initialState 0)) = 1
  /\ sessions (deleteSession "default" "k3x9q2ab" 7 (initialState 0))
     = [newChat "k3x9q2ab" 7].
Proof.
  destruct (one_active_session_always (initialState 0) (reachable_initial 0))
    as (H1 & H2 & H3).
  split; [exact H1 | split; [exact H2|]].
  exact (proj1 (H3 _ "k3x9q2ab" 7%Z eq_refl)).
Defined.

(** ** Delayed replies *)

(** C1: the callback scheduled by [sendMessage] replies into the session that
    had the active id when [sendMessage] was called, whatever session is
    active in the state [later] in which the timer fires: that session gets
    one message more at the end of its log, an assistant message whose content
    and table are the answer computed from the file the session holds in
    [later]; every other session, and the order, stay as they are in
    [later]. *)
Theorem reply_goes_to_call_time_session
  (st : State) (content userMsgId : string) (now : Z)
  (later : State) (replyId : string) (now' : Z) (s : ChatSession) :
  NoDup (sessionIds later) ->
  In s (sessions later) ->
  s_id s = activeSessionId st ->
  let p := snd (sendMessage content userMsgId now st) in
  let after := sendMessage_timeout p replyId now' later in
  let response := generateMockResponse content (s_file s) in
  let reply := {| m_id := replyId; m_role := ai;
                  m_content := r_content response;
                  m_timestamp := now'; m_table := r_table response |} in
  (exists before behind,
      sessions later = (before ++ s :: behind)%list
      /\ sessions after
         = (before
            ++ {| s_id := s_id s; s_name := s_name s;
                  s_fileName := s_fileName s; s_timestamp := s_timestamp s;
                  s_messages := (s_messages s ++ [reply])%list;
                  s_file := s_file s |} :: behind)%list)
  /\ activeSessionId after = activeSessionId later
  /\ isTyping after = false.
Proof.
  intros Hnd Hin Hid p after response reply. subst p after response reply.
  unfold sendMessage_timeout, sendMessage.
  cbn [snd p_activeSessionId p_content setIsTyping setSessions sessions
       activeSessionId isTyping].
  split; [|split; reflexivity].
  destruct (update_unique (activeSessionId st)
              (withMessage
                 (aiMessage replyId now'
                    (generateMockResponse content
                       (fileOf (find (fun x => s_id x =? activeSessionId st)
                                  (sessions later))))))
              (sessions later) s Hnd Hin Hid)
    as (before & behind & Hsplit & Hfind & Hmap).
  exists before, behind. split; [exact Hsplit|].
  rewrite Hmap, Hfind. reflexivity.
Qed.

(** The interleaving of the specification: session A is created, "x" is sent
    on it, session B is created and becomes active, then the timer fires: the
    reply is the second message of A, and B has none. *)
Lemma reply_goes_to_call_time_session_witness :
  let stA := createNewChat "A" 1 (initialState 0) in
  let sent := sendMessage "x" "m1" 2 stA in
  let stB := createNewChat "B" 3 (fst sent) in
  let after := sendMessage_timeout (snd sent) "m2" 4 stB in
  activeSessionId stB = "B"
  /\ map (fun s => (s_id s, map (fun m => (m_id m, m_role m)) (s_messages s)))
       (sessions after)
     = [("B", []); ("A", [("m1", user); ("m2", ai)]); ("default", [])]
  /\ map (fun s => map m_content (s_messages s)) (sessions after)
     = [[]; ["x"; r_content uploadPrompt]; []].
Proof.
  cbv zeta. split; [reflexivity|].
  destruct (reply_goes_to_call_time_session
              (createNewChat "A" 1 (initialState 0)) "x" "m1" 2
              (createNewChat "B" 3
                 (fst (sendMessage "x" "m1" 2
                         (createNewChat "A" 1 (initialState 0)))))
              "m2" 4
              {| s_id := "A"; s_name := "New Chat"; s_fileName := None;
                 s_timestamp := 1;
                 s_messages := [mkChatMessage "m1" user "x" 2 None];
                 s_file := None |})
    as [(before & behind & Hsplit & Hafter) _].
  - vm_compute. repeat constructor; intros C;
      repeat (destruct C as [C|C]; [discriminate C|]); exact C.
  - right. left. reflexivity.
  - reflexivity.
  - cbv zeta in Hafter. rewrite Hafter. clear Hafter.
    destruct before as [|b0 [|b1 [|b2 before]]]; cbn in Hsplit.
    + exfalso. injection Hsplit as E _. discriminate E.
    + injection Hsplit as <- <-. split; reflexivity.
    + exfalso. injection Hsplit as _ _ E _. discriminate E.
    + exfalso. injection Hsplit as _ _ _ E. destruct before; discriminate E.
Defined.

Example interleaved_reply_lands_in_A :
  let stA := createNewChat "A" 1 (initialState 0) in
  let sent := sendMessage "x" "m1" 2 stA in
  let stB := createNewChat "B" 3 (fst sent) in
  let after := sendMessage_timeout (snd sent) "m2" 4 stB in
  map (fun s => (s_id s, map m_role (s_messages s))) (sessions after)
  = [("B", []); ("A", [user; ai]); ("default", [])].
Proof. reflexivity. Qed.

(** When a file is attached while the reply is pending, the reply is computed
    from that file: the later file wins. *)
Example later_file_wins :
  let file := mkUploadedFile "t.csv" ["t"] "t" [[CellNumber 1]] [Some "n"] 1 in
  let sent := sendMessage "how many rows" "m1" 1 (initialState 0) in
  let st := setFile file "m2" 2 (fst sent) in
  let after := sendMessage_timeout (snd sent) "m3" 3 st in
  map (fun s => map m_content (s_messages s)) (sessions after)
  = [[ "how many rows"; fileLoadedContent file;
       r_content (rowsResponse file) ]].
Proof. reflexivity. Qed.

(** C6: when no session of the state in which the timer fires has the id the
    call targeted (the session was deleted meanwhile), the callback still runs
    (it clears [isTyping]) and leaves the whole collection, and the active id,
    as they were. *)
Theorem reply_to_deleted_session_changes_nothing
  (st : State) (content userMsgId : string) (now : Z)
  (later : State) (replyId : string) (now' : Z) :
  ~ In (activeSessionId st) (sessionIds later) ->
  let p := snd (sendMessage content userMsgId now st) in
  let after := sendMessage_timeout p replyId now' later in
  sessions after = sessions later
  /\ activeSessionId after = activeSessionId later
  /\ isTyping after = false.
Proof.
  intros Habsent p after. subst p after.
  unfold sendMessage_timeout, sendMessage.
  cbn [snd p_activeSessionId p_content setIsTyping setSessions sessions
       activeSessionId isTyping].
  repeat split. now apply update_absent.
Qed.

Lemma reply_to_deleted_session_changes_nothing_witness :
  let stA := createNewChat "A" 1 (initialState 0) in
  let sent := sendMessage "x" "m1" 2 stA in
  let later := deleteSession "A" "F" 3 (fst sent) in
  sessions (sendMessage_timeout (snd sent) "m2" 4 later) = sessions later.
Proof.
  cbv zeta.
  apply (reply_to_deleted_session_changes_nothing
           (createNewChat "A" 1 (initialState 0)) "x" "m1" 2
           (deleteSession "A" "F" 3
              (fst (sendMessage "x" "m1" 2
                      (createNewChat "A" 1 (initialState 0)))))
           "m2" 4).
  apply deleteSession_removes. discriminate.
Defined.

(** ** Deleting sessions *)

(** C8: when the deleted session is the active one and another session
    remains, the first session of the collection that is not deleted becomes
    the active one and heads the new collection. *)
Theorem deleteSession_activates_first_remaining
  (st : State) (id freshId : string) (now : Z)
  (before behind : list ChatSession) (first : ChatSession) :
  activeSessionId st = id ->
  sessions st = (before ++ first :: behind)%list ->
  Forall (fun s => s_id s = id) before ->
  s_id first <> id ->
  let st' := deleteSession id freshId now st in
  activeSessionId st' = s_id first
  /\ sessions st'
     = first :: filter (fun s => negb (s_id s =? id)) behind.
Proof.
  intros Hact Hsplit Hbefore Hfirst st'. subst st'. unfold deleteSession.
  rewrite Hsplit, filter_app.
  replace (filter (fun s => negb (s_id s =? id)) before)
    with (@nil ChatSession).
  - cbn [app filter].
    destruct (String.eqb_spec (s_id first) id) as [E|_]; [now elim Hfirst|].
    cbn [negb]. rewrite Hact, String.eqb_refl. split; reflexivity.
  - symmetry. clear Hsplit. induction Hbefore as [|b before Hb _ IH];
      [reflexivity|].
    cbn [filter]. rewrite Hb, String.eqb_refl. exact IH.
Qed.

Lemma deleteSession_activates_first_remaining_witness :
  let st := createNewChat "B" 2 (createNewChat "A" 1 (initialState 0)) in
  activeSessionId st = "B"
  /\ activeSessionId (deleteSession "B" "F" 3 st) = "A".
Proof.
  cbv zeta. split; [reflexivity|].
  apply (deleteSession_activates_first_remaining
           (createNewChat "B" 2 (createNewChat "A" 1 (initialState 0)))
           "B" "F" 3 [newChat "B" 2] (sessions (initialState 0)) (newChat "A" 1)).
  - reflexivity.
  - vm_compute. reflexivity.
  - repeat constructor.
  - discriminate.
Defined.

Lemma deleteSession_unknown_id_keeps_sessions
  (st : State) (id freshId : string) (now : Z) :
  sessions st <> [] ->
  ~ In id (sessionIds st) ->
  sessions (deleteSession id freshId now st) = sessions st.
Proof.
  intros Hne Habsent. unfold deleteSession.
  rewrite filter_keeps_all.
  - destruct (sessions st) as [|first rest] eqn:E; [now elim Hne|].
    now destruct (activeSessionId st =? id).
  - intros x Hx. destruct (String.eqb_spec (s_id x) id) as [E|_];
      [|reflexivity].
    elim Habsent. unfold sessionIds. rewrite <- E. now apply in_map.
Qed.

(** C10, as the code has it: deleting an id that no session of a non-empty
    collection has leaves the collection (and [isTyping]) unchanged; the
    active id is unchanged too unless it is that very id, which then names no
    session and is replaced by the id of the first session.  So the state is
    unchanged whenever the active id differs from the deleted id, and in
    particular whenever the active id names an existing session, as in every
    reachable state. *)
Theorem deleteSession_unknown_id_keeps_state_unless_selected
  (st : State) (id freshId : string) (now : Z)
  (first : ChatSession) (rest : list ChatSession) :
  sessions st = first :: rest ->
  ~ In id (sessionIds st) ->
  let st' := deleteSession id freshId now st in
  sessions st' = sessions st
  /\ isTyping st' = isTyping st
  /\ activeSessionId st'
     = (if activeSessionId st =? id then s_id first else activeSessionId st)
  /\ (activeSessionId st <> id -> st' = st)
  /\ (In (activeSessionId st) (sessionIds st) -> st' = st).
Proof.
  intros Hsplit Habsent st'. subst st'. unfold deleteSession.
  rewrite filter_keeps_all.
  - destruct st as [ss act typing]. unfold sessionIds in *. cbn in *.
    subst ss.
    destruct (String.eqb_spec act id) as [E|N]; cbn.
    + split; [reflexivity|]. split; [reflexivity|]. split; [reflexivity|].
      split; [intros C; now elim C|].
      intros C. subst. contradiction.
    + split; [reflexivity|]. split; [reflexivity|]. split; [reflexivity|].
      split; intros _; reflexivity.
  - intros x Hx. destruct (String.eqb_spec (s_id x) id) as [E|_];
      [|reflexivity].
    elim Habsent. unfold sessionIds. rewrite <- E. now apply in_map.
Qed.

Lemma deleteSession_unknown_id_keeps_state_unless_selected_witness :
  deleteSession "ghost" "F" 5 (initialState 0) = initialState 0
  /\ activeSessionId
       (deleteSession "ghost" "F" 5
          (setActiveSessionId "ghost" (initialState 0)))
     = "default".
Proof.
  split.
  - apply (deleteSession_unknown_id_keeps_state_unless_selected
             (initialState 0) "ghost" "F" 5 _ [] eq_refl).
    + cbn. intros [C|C]; [discriminate C | exact C].
    + first [discriminate | left; reflexivity].
  - apply (deleteSession_unknown_id_keeps_state_unless_selected
             (setActiveSessionId "ghost" (initialState 0)) "ghost" "F" 5
             _ [] eq_refl).
    cbn. intros [C|C]; [discriminate C | exact C].
Defined.

(** Without the condition on the active id the selection can move: the
    collection is not empty, no session has the id, and yet the active id
    changes. *)
Lemma deleteSession_unknown_id_moves_dangling_selection :
  let st := setActiveSessionId "ghost" (initialState 0) in
  sessions st <> []
  /\ ~ In "ghost" (sessionIds st)
  /\ activeSessionId st = "ghost"
  /\ activeSessionId (deleteSession "ghost" "F" 5 st) = "default"
  /\ activeSessionId (deleteSession "ghost" "F" 5 st) <> activeSessionId st.
Proof.
  cbv zeta. split; [discriminate|]. split.
  - cbn. intros [C|C]; [discriminate C | exact C].
  - repeat split. discriminate.
Qed.

(** ** Attaching a file *)

Section ExtensionFacts.

Lemma matchesExtension_cases (s : string) :
  matchesExtension s = true <->
  In (toLowerCase s) [".xlsx"; ".xls"; ".csv"].
Proof.
  unfold matchesExtension. rewrite !orb_true_iff, !String.eqb_eq.
  cbn [In]. intuition congruence.
Qed.

Lemma replaceExtension_unfold (s : string) :
  replaceExtension s
  = if matchesExtension s then EmptyString
    else match s with
         | EmptyString => EmptyString
         | String c r => String c (replaceExtension r)
         end.
Proof. destruct s; reflexivity. Qed.

(** The pattern ends at the end of the name, so it cannot match earlier
    than at a trailing extension. *)
Lemma no_match_before_extension (c : ascii) (base ext : string) :
  matchesExtension ext = true ->
  matchesExtension (String c (base ++ ext)) = false.
Proof.
  intros H. apply not_true_is_false. intros C.
  apply matchesExtension_cases in H, C.
  cbn [toLowerCase] in C. rewrite toLowerCase_append in C.
  assert (L : 4 <= String.length (toLowerCase ext)).
  { destruct H as [<-|[<-|[<-|[]]]]; cbn; lia. }
  destruct base as [|b base].
  - cbn [toLowerCase append] in C.
    destruct H as [H|[H|[H|[]]]]; rewrite <- H in C;
      destruct C as [C|[C|[C|[]]]]; discriminate C.
  - assert (L' : 6 <= String.length
                        (String (lowerChar c)
                           (toLowerCase (String b base) ++ toLowerCase ext))).
    { cbn [toLowerCase append String.length]. rewrite length_append. lia. }
    destruct C as [C|[C|[C|[]]]]; rewrite <- C in L'; cbn in L'; lia.
Qed.

(** A trailing extension, in any letter case, is what the replacement
    removes. *)
Lemma replaceExtension_strips (base ext : string) :
  In (toLowerCase ext) [".xlsx"; ".xls"; ".csv"] ->
  replaceExtension (base ++ ext) = base.
Proof.
  intros H. apply matchesExtension_cases in H.
  induction base as [|c base IH].
  - cbn [append]. now rewrite replaceExtension_unfold, H.
  - cbn [append]. rewrite replaceExtension_unfold.
    rewrite (no_match_before_extension c base ext H). now rewrite IH.
Qed.

End ExtensionFacts.

(** Finds [k] in a chain [a ++ b ++ ... ++ k ++ ...] of appended pieces. *)
Ltac find_in_chain :=
  repeat first [apply includes_here | apply includes_skip].

Lemma numToString_isDecimal (n : nat) : isDecimalOf n (numToString n).
Proof.
  unfold isDecimalOf, numToString.
  assert (N : Nat.to_uint n <> Decimal.Nil).
  { rewrite <- (DecimalNat.Unsigned.of_to n) at 1. rewrite DecimalNat.Unsigned.to_of.
    apply DecimalFacts.unorm_nonnil. }
  rewrite <- (NilZero.usu _ N). f_equal.
  destruct (Nat.to_uint n); [now elim N | reflexivity..].
Qed.

Lemma isDecimalOf_unique (n : nat) (digits : string) :
  isDecimalOf n digits -> digits = numToString n.
Proof.
  unfold isDecimalOf, numToString. intros H. apply NilZero.sus in H.
  rewrite <- H. destruct (Nat.to_uint n) eqn:E; try reflexivity.
  exfalso. revert E. rewrite <- (DecimalNat.Unsigned.of_to n) at 1.
  rewrite DecimalNat.Unsigned.to_of. apply DecimalFacts.unorm_nonnil.
Qed.

Lemma firstFourHeaders_shown (headers : list (option string)) :
  joinSparse ", " (firstn 4 headers)
  ++ (if (4 <? List.length headers)%nat then "..." else EmptyString)
  = spec_firstFourHeaders headers.
Proof.
  unfold joinSparse, spec_firstFourHeaders.
  destruct headers as [|a [|b [|c [|d [|e rest]]]]];
    cbn [firstn map join List.length Nat.ltb Nat.leb];
    rewrite ?append_assoc, ?append_empty_r; reflexivity.
Qed.

Lemma fileLoadedContent_shows (file : UploadedFile) :
  includes (fileLoadedContent file)
    ("**" ++ uf_name file ++ "** loaded successfully!") = true
  /\ includes (fileLoadedContent file)
       ("Sheet: **" ++ uf_selectedSheet file ++ "**" ++ nl) = true
  /\ (exists digits,
        isDecimalOf (uf_rowCount file) digits
        /\ includes (fileLoadedContent file)
             ("Rows: **" ++ digits ++ "**" ++ nl) = true)
  /\ includes (fileLoadedContent file)
       ("** (" ++ spec_firstFourHeaders (uf_headers file) ++ ")" ++ nl) = true.
Proof.
  unfold fileLoadedContent.
  change (Some 4%Z) with (Some (Z.of_nat 4)).
  rewrite slice_from_start, firstn_min_length.
  rewrite <- (append_assoc (joinSparse ", " (firstn 4 (uf_headers file)))).
  rewrite firstFourHeaders_shown.
  set (tail := "I'm ready to analyze your data. What would you like to know?").
  change "📁 **" with ("📁 " ++ "**").
  change "• Sheet: **" with ("• " ++ "Sheet: **").
  change "• Rows: **" with ("• " ++ "Rows: **").
  rewrite !append_assoc.
  split; [seek_pieces|]. split; [seek_pieces|]. split; [|seek_pieces].
  exists (numToString (uf_rowCount file)).
  split; [apply numToString_isDecimal | seek_pieces].
Qed.

(** C7: [setFile] replaces the active session, in place, by the same session
    bound to the file, named after the file with a trailing .xlsx, .xls or
    .csv removed whatever its letter case, and with exactly one more message:
    an assistant message whose content shows the file name (in bold, before
    "loaded successfully!"), the selected sheet (after "Sheet:"), the decimal
    numeral of the row count (after "Rows:"), and in parentheses the first 4
    headers, separated by commas, closed by "..." exactly when there are more
    than 4. *)
Theorem setFile_binds_renames_and_announces
  (st : State) (file : UploadedFile) (msgId : string) (now : Z)
  (s : ChatSession) :
  NoDup (sessionIds st) ->
  In s (sessions st) ->
  s_id s = activeSessionId st ->
  let after := setFile file msgId now st in
  exists before behind sysMsg,
    sessions st = (before ++ s :: behind)%list
    /\ sessions after
       = (before
          ++ {| s_id := s_id s;
                s_name := replaceExtension (uf_name file);
                s_fileName := Some (uf_name file);
                s_timestamp := s_timestamp s;
                s_messages := (s_messages s ++ [sysMsg])%list;
                s_file := Some file |} :: behind)%list
    /\ (forall base ext,
          uf_name file = base ++ ext ->
          In (toLowerCase ext) [".xlsx"; ".xls"; ".csv"] ->
          replaceExtension (uf_name file) = base)
    /\ m_role sysMsg = ai
    /\ includes (m_content sysMsg)
         ("**" ++ uf_name file ++ "** loaded successfully!") = true
    /\ includes (m_content sysMsg)
         ("Sheet: **" ++ uf_selectedSheet file ++ "**" ++ nl) = true
    /\ (exists digits,
          isDecimalOf (uf_rowCount file) digits
          /\ includes (m_content sysMsg)
               ("Rows: **" ++ digits ++ "**" ++ nl) = true)
    /\ includes (m_content sysMsg)
         ("** (" ++ spec_firstFourHeaders (uf_headers file) ++ ")" ++ nl)
       = true.
Proof.
  intros Hnd Hin Hid after. subst after. unfold setFile, updateSession.
  cbn [setSessions sessions].
  edestruct (update_unique (activeSessionId st)) with (l := sessions st)
    as (before & behind & Hsplit & _ & Hmap); [exact Hnd | exact Hin | exact Hid |].
  exists before, behind,
    {| m_id := msgId; m_role := ai; m_content := fileLoadedContent file;
       m_timestamp := now; m_table := None |}.
  split; [exact Hsplit|]. split; [exact Hmap|].
  split; [intros base ext -> Hext; now apply replaceExtension_strips|].
  split; [reflexivity|]. cbn [m_content]. apply fileLoadedContent_shows.
Qed.

(** The example of the specification: Q3-Report.XLSX names the session
    Q3-Report, and the announcement shows sheet, row count and headers. *)
Lemma setFile_binds_renames_and_announces_witness :
  let file := mkUploadedFile "Q3-Report.XLSX" ["Sales"] "Sales"
                [[CellNumber 1]; [CellNumber 2]]
                [Some "a"; Some "b"; Some "c"; Some "d"; Some "e"] 2 in
  exists sysMsg,
    sessions (setFile file "m1" 1 (initialState 0))
    = [ {| s_id := "default"; s_name := "Q3-Report";
           s_fileName := Some "Q3-Report.XLSX"; s_timestamp := 0;
           s_messages := [sysMsg]; s_file := Some file |} ]
    /\ m_role sysMsg = ai
    /\ includes (m_content sysMsg)
         ("**Q3-Report.XLSX** loaded successfully!") = true
    /\ includes (m_content sysMsg) ("Sheet: **Sales**" ++ nl) = true
    /\ includes (m_content sysMsg) ("Rows: **2**" ++ nl) = true
    /\ includes (m_content sysMsg) ("** (a, b, c, d...)" ++ nl) = true.
Proof.
  cbv zeta.
  destruct (setFile_binds_renames_and_announces
              (initialState 0)
              (mkUploadedFile "Q3-Report.XLSX" ["Sales"] "Sales"
                 [[CellNumber 1]; [CellNumber 2]]
                 [Some "a"; Some "b"; Some "c"; Some "d"; Some "e"] 2)
              "m1" 1
              {| s_id := "default"; s_name := "Welcome Chat";
                 s_fileName := None; s_timestamp := 0; s_messages := [];
                 s_file := None |})
    as (before & behind & sysMsg & Hsplit & Hafter & Hname & Hrole
        & Hfile & Hsheet & (digits & Hdigits & Hrows) & Hheaders).
  - vm_compute. repeat constructor. intros [].
  - left. reflexivity.
  - reflexivity.
  - exists sysMsg.
    apply isDecimalOf_unique in Hdigits. subst digits.
    destruct before as [|b [|b' before]]; [|discriminate Hsplit..].
    destruct behind; [|discriminate Hsplit].
    cbv zeta in Hafter. rewrite Hafter.
    rewrite (Hname "Q3-Report" ".XLSX" eq_refl (or_introl eq_refl)).
    repeat split; assumption.
Defined.

Example fileLoadedContent_of_five_headers :
  fileLoadedContent
    (mkUploadedFile "Q3-Report.XLSX" ["Sales"] "Sales"
       [[CellNumber 1]; [CellNumber 2]] [Some "a"; Some "b"; Some "c"; Some "d"; Some "e"] 2)
  = "📁 **Q3-Report.XLSX** loaded successfully!" ++ nl ++ nl
    ++ "• Sheet: **Sales**" ++ nl
    ++ "• Rows: **2**" ++ nl
    ++ "• Columns: **5** (a, b, c, d...)" ++ nl ++ nl
    ++ "I'm ready to analyze your data. What would you like to know?".
Proof. reflexivity. Qed.

(** A name without one of the three extensions at its end is kept whole. *)
Example replaceExtension_examples :
  replaceExtension "Q3-Report.XLSX" = "Q3-Report"
  /\ replaceExtension "data.Csv" = "data"
  /\ replaceExtension "old.xls.bak" = "old.xls.bak"
  /\ replaceExtension "a.csv.xls" = "a.csv".
Proof. repeat split. Qed.

(** ** Blank input *)

Section TrimFacts.

Lemma leading_whiteSpace (w rest : string) :
  In w whiteSpace -> leading whiteSpace (w ++ rest) = Some w.
Proof.
  unfold whiteSpace. intros H.
  repeat (destruct H as [<-|H]; [destruct rest; reflexivity|]).
  destruct H.
Qed.

Lemma substring_drop (w rest : string) :
  substring (String.length w) (String.length (w ++ rest) - String.length w)
    (w ++ rest) = rest.
Proof.
  induction w as [|c w IH]; cbn [append String.length substring].
  - rewrite Nat.sub_0_r. apply substring_all.
  - exact IH.
Qed.

Lemma whiteSpace_nonempty (w : string) :
  In w whiteSpace -> 1 <= String.length w.
Proof.
  unfold whiteSpace. intros H.
  repeat (destruct H as [<-|H]; [cbn; lia|]). destruct H.
Qed.

Lemma blank_length (ws : list string) :
  Forall (fun w => In w whiteSpace) ws ->
  List.length ws <= String.length (blank ws).
Proof.
  induction 1 as [|w ws Hw _ IH]; cbn [blank fold_right List.length];
    [lia|].
  rewrite length_append. apply whiteSpace_nonempty in Hw.
  fold (blank ws). lia.
Qed.

Lemma stripFront_blank (ws : list string) :
  Forall (fun w => In w whiteSpace) ws ->
  forall fuel, List.length ws <= fuel ->
  stripFront fuel whiteSpace (blank ws) = EmptyString.
Proof.
  induction 1 as [|w ws Hw _ IH]; intros fuel Hfuel.
  - destruct fuel; reflexivity.
  - destruct fuel as [|fuel]; [cbn in Hfuel; lia|].
    cbn [blank fold_right stripFront]. fold (blank ws).
    rewrite (leading_whiteSpace w (blank ws) Hw), substring_drop.
    apply IH. cbn in Hfuel. lia.
Qed.

(** [trim] empties every string that holds white space only. *)
Lemma trim_blank (ws : list string) :
  Forall (fun w => In w whiteSpace) ws -> trim (blank ws) = EmptyString.
Proof.
  intros H. unfold trim, trimStart.
  rewrite (stripFront_blank ws H) by now apply blank_length.
  reflexivity.
Qed.

End TrimFacts.

Lemma handleSend_blank (input msgId : string) (now : Z) (st : State) :
  trim input = EmptyString -> handleSend input msgId now st = (input, st, None).
Proof. intros H. unfold handleSend. now rewrite H. Qed.

Lemma handleSend_not_blank (input msgId : string) (now : Z) (st : State) :
  trim input <> EmptyString ->
  handleSend input msgId now st
  = (EmptyString, fst (sendMessage (trim input) msgId now st),
     Some (snd (sendMessage (trim input) msgId now st))).
Proof.
  intros H. unfold handleSend.
  destruct (trim input) as [|c r] eqn:E; [now elim H|]. reflexivity.
Qed.

(** C4, as the code has it: the guard is in [handleSend], the caller of
    [sendMessage].  For an input that is empty or trims to the empty string,
    [handleSend] does not call [sendMessage]: the store is unchanged (no
    user message, the same collection) and nothing is scheduled.  For any
    other input it calls [sendMessage] on the trimmed text. *)
Theorem handleSend_ignores_blank_input
  (input msgId : string) (now : Z) (st : State) :
  (trim input = EmptyString ->
   handleSend input msgId now st = (input, st, None))
  /\ (trim input <> EmptyString ->
      handleSend input msgId now st
      = (EmptyString, fst (sendMessage (trim input) msgId now st),
         Some (snd (sendMessage (trim input) msgId now st)))).
Proof.
  split; [apply handleSend_blank | apply handleSend_not_blank].
Qed.

Lemma handleSend_ignores_blank_input_witness :
  handleSend (" " ++ nl ++ b2 194 160 ++ "  ") "m1" 1 (initialState 0)
  = (" " ++ nl ++ b2 194 160 ++ "  ", initialState 0, None)
  /\ fst (fst (handleSend "  hi " "m1" 1 (initialState 0))) = EmptyString.
Proof.
  split.
  - apply (handleSend_ignores_blank_input
             (" " ++ nl ++ b2 194 160 ++ "  ") "m1" 1 (initialState 0)).
    reflexivity.
  - rewrite (proj2 (handleSend_ignores_blank_input
                      "  hi " "m1" 1 (initialState 0)));
      [reflexivity | discriminate].
Defined.

(** [handleSend] on any white-space-only input leaves the store alone. *)
Lemma handleSend_whitespace_only
  (ws : list string) (msgId : string) (now : Z) (st : State) :
  Forall (fun w => In w whiteSpace) ws ->
  handleSend (blank ws) msgId now st = (blank ws, st, None).
Proof. intros H. apply handleSend_blank, trim_blank, H. Qed.

(** [sendMessage] itself has no guard: called with the empty text, or with
    blanks, it appends a user message and schedules a reply. *)
Lemma sendMessage_blank_text_is_recorded :
  trim "  " = EmptyString
  /\ sessions (fst (sendMessage "  " "m1" 1 (initialState 0)))
     <> sessions (initialState 0)
  /\ map (fun s => map m_content (s_messages s))
       (sessions (fst (sendMessage EmptyString "m1" 1 (initialState 0))))
     = [[EmptyString]]
  /\ isTyping (fst (sendMessage EmptyString "m1" 1 (initialState 0))) = true
  /\ snd (sendMessage EmptyString "m1" 1 (initialState 0))
     = {| p_activeSessionId := "default"; p_content := EmptyString |}.
Proof.
  split; [reflexivity|]. split; [discriminate|]. repeat split.
Qed.

(** * Further properties of the code *)

(** ** The upload panel *)

(** [xs.slice(1)] drops the first element. *)
Lemma slice_rest {A} (xs : list A) : slice 1 None xs = tl xs.
Proof.
  unfold slice, clampIndex. replace (1 <? 0)%Z with false by reflexivity.
  destruct xs as [|x xs]; [reflexivity|].
  replace (Z.min 1 (Z.of_nat (List.length (x :: xs)))) with 1%Z
    by (cbn [List.length]; lia).
  change (Z.to_nat 1) with 1. cbn [skipn tl].
  apply firstn_all2. cbn [List.length]. lia.
Qed.

Lemma noSheet_false (sel : option string) :
  noSheet sel = false <-> exists name, sel = Some name /\ name <> EmptyString.
Proof.
  destruct sel as [[|c r]|]; cbn; split;
    try discriminate; try reflexivity.
  - intros (name & E & N). injection E as <-. now elim N.
  - intros _. exists (String c r). split; [reflexivity | discriminate].
  - intros (name & E & _). discriminate E.
Qed.

Section ConfirmFacts.

Variable asStrings : list Cell -> list (option string).

Lemma handleConfirm_uploads (ps : PanelState) (parsed : ParsedFile)
  (sheetName : string) :
  parsedFile ps = Some parsed ->
  selectedSheet ps = Some sheetName ->
  sheetName <> EmptyString ->
  handleConfirm asStrings ps
  = ({| parsedFile := None; selectedSheet := Some EmptyString;
        error := error ps; isProcessing := isProcessing ps |},
     Some {| uf_name := pf_name parsed;
             uf_sheets := pf_sheets parsed;
             uf_selectedSheet := sheetName;
             uf_data := tl (sheetToJson (pf_workbook parsed) sheetName);
             uf_headers :=
               match sheetToJson (pf_workbook parsed) sheetName with
               | [] => []
               | row :: _ => asStrings row
               end;
             uf_rowCount :=
               List.length (sheetToJson (pf_workbook parsed) sheetName) - 1 |}).
Proof.
  intros Hp Hs Hn. unfold handleConfirm. rewrite Hp, Hs.
  replace (noSheet (Some sheetName)) with false
    by (symmetry; apply noSheet_false; eauto).
  rewrite slice_rest.
  destruct (sheetToJson (pf_workbook parsed) sheetName) as [|row rows];
    cbn [hd_error tl List.length]; [reflexivity|].
  now replace (S (List.length rows) - 1) with (List.length rows) by lia.
Qed.

(** X1: a file that [handleConfirm] uploads is consistent: its [rowCount] is
    the number of its data rows, which are the rows of the selected sheet
    after the first; it carries the name and sheet list of the parsed file and
    the selected sheet, whose name is not empty; and the panel forgets the
    parsed file. *)
Theorem handleConfirm_file_is_consistent
  (ps ps' : PanelState) (file : UploadedFile) :
  handleConfirm asStrings ps = (ps', Some file) ->
  uf_rowCount file = List.length (uf_data file)
  /\ parsedFile ps' = None
  /\ exists parsed,
       parsedFile ps = Some parsed
       /\ selectedSheet ps = Some (uf_selectedSheet file)
       /\ uf_selectedSheet file <> EmptyString
       /\ uf_name file = pf_name parsed
       /\ uf_sheets file = pf_sheets parsed
       /\ uf_data file
          = tl (sheetToJson (pf_workbook parsed) (uf_selectedSheet file)).
Proof.
  intros H. unfold handleConfirm in H.
  destruct (parsedFile ps) as [parsed|] eqn:Hp; [|discriminate H].
  destruct (noSheet (selectedSheet ps)) eqn:Hn; [discriminate H|].
  apply noSheet_false in Hn as (name & Hs & Hne). rewrite Hs in H.
  injection H as <- <-. cbn. rewrite slice_rest.
  split; [reflexivity|]. split; [reflexivity|].
  exists parsed. repeat split; assumption.
Qed.

(** X2: [handleConfirm] uploads nothing, and leaves the panel as it is,
    exactly when no file is parsed or no sheet is selected (the selection is
    [undefined] or the empty string). *)
Theorem handleConfirm_guard (ps : PanelState) :
  (snd (handleConfirm asStrings ps) = None
   <-> parsedFile ps = None \/ noSheet (selectedSheet ps) = true)
  /\ (snd (handleConfirm asStrings ps) = None ->
      fst (handleConfirm asStrings ps) = ps).
Proof.
  unfold handleConfirm.
  destruct (parsedFile ps) as [parsed|]; [|cbn; tauto].
  destruct (selectedSheet ps) as [[|c r]|]; cbn; split;
    try tauto; try (intros _; reflexivity).
  - split; [discriminate | intros [H|H]; discriminate H].
  - discriminate.
Qed.

(** X3: asking about a file right after its upload never shows the header
    row as data: the preview table holds the first five rows after the first
    row of the selected sheet, the last table the last five of them. *)
Theorem upload_then_preview_skips_header
  (ps : PanelState) (parsed : ParsedFile) (sheetName question : string) :
  parsedFile ps = Some parsed ->
  selectedSheet ps = Some sheetName ->
  sheetName <> EmptyString ->
  let rows := tl (sheetToJson (pf_workbook parsed) sheetName) in
  exists file,
    snd (handleConfirm asStrings ps) = Some file
    /\ (spec_classify question (Some file) = Preview ->
        r_table (generateMockResponse question (Some file))
        = Some {| t_headers := uf_headers file; t_rows := firstn 5 rows |})
    /\ (spec_classify question (Some file) = Last ->
        r_table (generateMockResponse question (Some file))
        = Some {| t_headers := uf_headers file;
                  t_rows := skipn (List.length rows - 5) rows |}).
Proof.
  intros Hp Hs Hn rows. subst rows.
  rewrite (handleConfirm_uploads ps parsed sheetName Hp Hs Hn).
  eexists. split; [reflexivity|].
  set (rows := tl (sheetToJson (pf_workbook parsed) sheetName)).
  split; intros C; rewrite generateMockResponse_classify, C;
    cbn [spec_answer]; [unfold previewResponse | unfold lastResponse];
    cbn [r_table uf_data uf_headers]; do 2 f_equal.
  - change (Some 5%Z) with (Some (Z.of_nat 5)).
    now rewrite slice_from_start, firstn_min_length.
  - change (-5)%Z with (- Z.of_nat 5)%Z. rewrite slice_from_end by lia.
    f_equal. lia.
Qed.


End ConfirmFacts.

Lemma handleConfirm_file_is_consistent_witness :
  uf_rowCount sampleFile = List.length (uf_data sampleFile)
  /\ handleConfirm textCells samplePanel
     = ({| parsedFile := None; selectedSheet := Some EmptyString;
           error := EmptyString; isProcessing := false |}, Some sampleFile).
Proof.
  split; [|reflexivity].
  apply (handleConfirm_file_is_consistent textCells samplePanel
           {| parsedFile := None; selectedSheet := Some EmptyString;
              error := EmptyString; isProcessing := false |} sampleFile).
  reflexivity.
Defined.

Lemma handleConfirm_guard_witness :
  fst (handleConfirm textCells emptyPanel) = emptyPanel.
Proof.
  apply (handleConfirm_guard textCells emptyPanel). reflexivity.
Defined.

Lemma upload_then_preview_skips_header_witness :
  exists file,
    snd (handleConfirm textCells samplePanel) = Some file
    /\ r_table (generateMockResponse "preview" (Some file))
       = Some {| t_headers := [Some "region"; Some "total"];
                 t_rows := [ [CellText "north"; CellNumber 10];
                             [CellText "south"; CellNumber 20] ] |}.
Proof.
  destruct (upload_then_preview_skips_header textCells samplePanel
              {| pf_name := "Q3.xlsx"; pf_workbook := sampleBook;
                 pf_sheets := ["Sales"; "Costs"] |} "Sales" "preview")
    as (file & Hfile & Hpreview & _);
    [reflexivity | reflexivity | discriminate |].
  exists file. split; [exact Hfile|].
  assert (E : file = sampleFile)
    by (cbv in Hfile; injection Hfile as <-; reflexivity).
  subst file. apply Hpreview. reflexivity.
Defined.


(** ** More on the dispatcher *)

Section IncludesFacts.

Lemma prefix_empty (s : string) : prefix EmptyString s = true.
Proof. destruct s; reflexivity. Qed.

Lemma prefix_append_l (k a b : string) :
  prefix k a = true -> prefix k (a ++ b) = true.
Proof.
  revert a. induction k as [|c k IH]; intros a H; [apply prefix_empty|].
  destruct a as [|x a]; [discriminate H|].
  cbn [append prefix] in *.
  destruct (ascii_dec c x); [now apply IH | discriminate H].
Qed.

Lemma includes_refl (k : string) : includes k k = true.
Proof.
  rewrite <- (append_empty_r k) at 1. apply includes_here.
Qed.

Lemma includes_append_l (a b k : string) :
  includes a k = true -> includes (a ++ b) k = true.
Proof.
  induction a as [|c a IH]; intros H.
  - cbn [includes] in H. destruct (prefix k EmptyString) eqn:P;
      [|discriminate H].
    destruct k; [|discriminate P]. cbn [append].
    destruct b; reflexivity.
  - cbn [append includes] in *.
    destruct (prefix k (String c a)) eqn:P.
    + change (String c (a ++ b)) with (String c a ++ b).
      now rewrite (prefix_append_l _ _ b P).
    + rewrite (IH H). now destruct (prefix k (String c (a ++ b))).
Qed.

(** A piece of a three-part string is found in it. *)
Lemma includes_middle (a k b : string) : includes (a ++ k ++ b) k = true.
Proof. apply includes_skip, includes_here. Qed.

(** Every element of an array is found in its [join]. *)
Lemma includes_join (sep x : string) (xs : list string) :
  In x xs -> includes (join sep xs) x = true.
Proof.
  induction xs as [|y [|z xs] IH]; intros H; [destruct H| |].
  - destruct H as [<-|[]]. apply includes_refl.
  - change (join sep (y :: z :: xs)) with (y ++ sep ++ join sep (z :: xs)).
    destruct H as [<-|H]; [apply includes_here|].
    do 2 apply includes_skip. now apply IH.
Qed.

Lemma nth_error_mapiFrom {A B} (f : A -> nat -> B) (xs : list A) :
  forall k i x,
    nth_error xs i = Some x ->
    nth_error (mapiFrom f k xs) i = Some (f x (k + i)).
Proof.
  induction xs as [|y xs IH]; intros k [|i] x H; try discriminate H.
  - injection H as <-. cbn. now rewrite Nat.add_0_r.
  - cbn [mapiFrom nth_error] in *. rewrite (IH (S k) i x H).
    do 2 f_equal. lia.
Qed.

End IncludesFacts.

Lemma classified_answer (question : string) (f : UploadedFile) (b : Branch) :
  spec_classify question (Some f) = b ->
  generateMockResponse question (Some f) = spec_answer b (Some f).
Proof. intros <-. apply generateMockResponse_classify. Qed.

(** X5: a response carries a table only for a bound dataset and a question of
    the preview or the last branch; the table has the headers of the dataset
    and at most 5 rows, which are the first or the last rows of the dataset
    in their order, and the content is the sentence of that branch with the
    decimal numeral of exactly the number of rows the table holds. *)
Theorem response_table_is_a_window
  (question : string) (file : option UploadedFile) (t : Table) :
  r_table (generateMockResponse question file) = Some t ->
  exists f before behind digits,
    file = Some f
    /\ t_headers t = uf_headers f
    /\ List.length (t_rows t) <= 5
    /\ uf_data f = (before ++ t_rows t ++ behind)%list
    /\ isDecimalOf (List.length (t_rows t)) digits
    /\ (spec_classify question file = Preview
        /\ before = []
        /\ r_content (generateMockResponse question file)
           = "Here's a preview of the first " ++ digits
             ++ " rows from your data:"
        \/ spec_classify question file = Last
           /\ behind = []
           /\ r_content (generateMockResponse question file)
              = "Here are the last " ++ digits ++ " rows from your data:").
Proof.
  rewrite generateMockResponse_classify.
  destruct file as [f|]; [|discriminate].
  destruct (spec_classify question (Some f)) eqn:C; cbn [spec_answer];
    try discriminate; intros H; injection H as <-; cbn [t_headers t_rows].
  - change (Some 5%Z) with (Some (Z.of_nat 5)). rewrite slice_from_start.
    assert (L : List.length (firstn (Nat.min 5 (List.length (uf_data f)))
                               (uf_data f))
                = Nat.min 5 (List.length (uf_data f)))
      by (rewrite length_firstn; lia).
    exists f, [], (skipn (Nat.min 5 (List.length (uf_data f))) (uf_data f)),
      (numToString (Nat.min 5 (List.length (uf_data f)))).
    split; [reflexivity|]. split; [reflexivity|]. rewrite L.
    split; [lia|]. split; [symmetry; apply firstn_skipn|].
    split; [apply numToString_isDecimal|]. left. repeat split.
  - change (-5)%Z with (- Z.of_nat 5)%Z. rewrite slice_from_end by lia.
    set (n := List.length (uf_data f)).
    assert (L : List.length (skipn (n - Nat.min 5 n) (uf_data f))
                = Nat.min 5 n)
      by (rewrite length_skipn; fold n; lia).
    exists f, (firstn (n - Nat.min 5 n) (uf_data f)), [],
      (numToString (Nat.min 5 n)).
    split; [reflexivity|]. split; [reflexivity|]. rewrite L.
    split; [lia|]. split; [rewrite app_nil_r; symmetry; apply firstn_skipn|].
    split; [apply numToString_isDecimal|]. right. repeat split.
Qed.

Lemma response_table_is_a_window_witness :
  r_content (generateMockResponse "the LAST ones" (Some sampleFile))
  = "Here are the last 2 rows from your data:"
  /\ uf_data sampleFile
     = [ [CellText "north"; CellNumber 10]; [CellText "south"; CellNumber 20] ].
Proof.
  destruct (response_table_is_a_window "the LAST ones" (Some sampleFile)
              {| t_headers := [Some "region"; Some "total"];
                 t_rows := uf_data sampleFile |} eq_refl)
    as (f & before & behind & digits & Hf & _ & _ & Hdata & Hdigits
        & [(C & _)|(_ & _ & Hcontent)]).
  - discriminate C.
  - apply isDecimalOf_unique in Hdigits. subst digits.
    split; [exact Hcontent | reflexivity].
Defined.

(** X6: a question that contains "summary", "overview" or "describe"
    anywhere, inside other text and in any letter case, gets the summary of
    the bound dataset, whatever else it mentions. *)
Theorem summary_keyword_anywhere
  (before keyword behind : string) (f : UploadedFile) :
  In (toLowerCase keyword) ["summary"; "overview"; "describe"] ->
  generateMockResponse (before ++ keyword ++ behind) (Some f)
  = summaryResponse f.
Proof.
  intros H. apply (classified_answer _ f Summary).
  unfold spec_classify, spec_rules. cbn [spec_firstMatch existsb].
  rewrite !toLowerCase_append.
  destruct H as [<-|[<-|[<-|[]]]]; rewrite includes_middle;
    rewrite ?orb_true_r; reflexivity.
Qed.

Lemma summary_keyword_anywhere_witness :
  generateMockResponse "show the last rows, then DESCRIBE!" (Some sampleFile)
  = summaryResponse sampleFile.
Proof.
  apply (summary_keyword_anywhere "show the last rows, then " "DESCRIBE" "!"
           sampleFile).
  right. right. left. reflexivity.
Defined.

Lemma columnLines_of_map (hs : list (option string)) (k : nat) :
  map elementText
    (mapiFrom (fun x i =>
                 option_map (fun h => numToString (i + 1) ++ ". **" ++ h ++ "**") x)
              k hs)
  = spec_columnLines (k + 1) hs.
Proof.
  revert k. induction hs as [|[h|] hs IH]; intros k; [reflexivity| |];
    cbn [mapiFrom map spec_columnLines option_map elementText];
    rewrite IH; reflexivity.
Qed.

Lemma columnLines_nth (hs : list (option string)) :
  forall k i h,
    nth_error hs i = Some (Some h) ->
    In (numToString (k + i) ++ ". **" ++ h ++ "**") (spec_columnLines k hs).
Proof.
  induction hs as [|x hs IH]; intros k [|i] h H; try discriminate H.
  - injection H as ->. cbn [spec_columnLines]. rewrite Nat.add_0_r. now left.
  - cbn [nth_error] in H. specialize (IH (S k) i h H).
    replace (k + S i) with (S k + i) by lia.
    destruct x; cbn [spec_columnLines]; now right.
Qed.

(** X7: the answer of the columns branch states the number of columns, holes
    of the header row included, and then lists the header row line by line:
    a header is written with its position counted from 1, and a hole (an
    empty header cell) leaves its line empty. *)
Theorem columns_answer_enumerates_headers
  (question : string) (f : UploadedFile) :
  spec_classify question (Some f) = Columns ->
  exists count,
    isDecimalOf (List.length (uf_headers f)) count
    /\ r_content (generateMockResponse question (Some f))
       = "Your dataset contains **" ++ count ++ " columns**:" ++ nl ++ nl
         ++ join nl (spec_columnLines 1 (uf_headers f))
         ++ nl ++ nl ++ "Would you like me to analyze any specific column?"
    /\ (forall i h,
          nth_error (uf_headers f) i = Some (Some h) ->
          includes (r_content (generateMockResponse question (Some f)))
            (numToString (i + 1) ++ ". **" ++ h ++ "**") = true).
Proof.
  intros C. rewrite (classified_answer _ _ _ C).
  cbn [spec_answer columnsResponse r_content].
  unfold joinSparse, mapSparse, mapi.
  rewrite (columnLines_of_map (uf_headers f) 0). cbn [Nat.add].
  exists (numToString (List.length (uf_headers f))).
  split; [apply numToString_isDecimal|]. split; [reflexivity|].
  intros i h Hnth.
  do 5 apply includes_skip. apply includes_append_l, includes_join.
  rewrite (Nat.add_comm i 1). now apply columnLines_nth.
Qed.

Lemma columns_answer_enumerates_headers_witness :
  r_content
    (generateMockResponse "Which FIELDS?"
       (Some (mkUploadedFile "t.csv" ["t"] "t" []
                [Some "a"; None; Some "c"] 0)))
  = "Your dataset contains **3 columns**:" ++ nl ++ nl
    ++ "1. **a**" ++ nl ++ nl ++ "3. **c**"
    ++ nl ++ nl ++ "Would you like me to analyze any specific column?".
Proof.
  destruct (columns_answer_enumerates_headers "Which FIELDS?"
              (mkUploadedFile "t.csv" ["t"] "t" []
                 [Some "a"; None; Some "c"] 0) eq_refl)
    as (count & Hcount & Hcontent & _).
  apply isDecimalOf_unique in Hcount. subst count. exact Hcontent.
Defined.

(** X8: the summary names the file and the selected sheet and gives the row
    count, the number of columns and all headers, separated by commas. *)
Theorem summary_mentions_the_dataset (question : string) (f : UploadedFile) :
  spec_classify question (Some f) = Summary ->
  let content := r_content (generateMockResponse question (Some f)) in
  includes content ("**" ++ uf_name f ++ "**") = true
  /\ includes content ("(Sheet: " ++ uf_selectedSheet f ++ ")") = true
  /\ includes content ("Total Rows: " ++ numToString (uf_rowCount f) ++ nl) = true
  /\ includes content
       ("Total Columns: " ++ numToString (List.length (uf_headers f)) ++ nl) = true
  /\ includes content ("Columns: " ++ joinSparse ", " (uf_headers f) ++ nl) = true.
Proof.
  intros C. cbv zeta. rewrite (classified_answer _ _ _ C).
  cbn [spec_answer]. unfold summaryResponse. cbn [r_content].
  set (tail := "The data appears to be well-structured. You can ask me specific questions about any column or request calculations!").
  change "Here's a summary of your data from **"
    with ("Here's a summary of your data from " ++ "**").
  change "** (Sheet: " with ("**" ++ " " ++ "(Sheet: ").
  change "):" with (")" ++ ":").
  change "• Total Rows: " with ("• " ++ "Total Rows: ").
  change "• Total Columns: " with ("• " ++ "Total Columns: ").
  change "• Columns: " with ("• " ++ "Columns: ").
  rewrite !append_assoc.
  repeat split; seek_pieces.
Qed.

Lemma summary_mentions_the_dataset_witness :
  includes (r_content (generateMockResponse "Overview, please" (Some sampleFile)))
    ("Columns: region, total" ++ nl) = true.
Proof.
  destruct (summary_mentions_the_dataset "Overview, please" sampleFile eq_refl)
    as (_ & _ & _ & _ & H).
  exact H.
Defined.

(** X9: the default answer lists the first 5 headers only, followed by the
    number of the remaining ones exactly when there are more than 5. *)
Theorem default_answer_lists_five_headers (question : string) (f : UploadedFile) :
  spec_classify question (Some f) = Default ->
  includes (r_content (generateMockResponse question (Some f)))
    ("columns: " ++ joinSparse ", " (firstn 5 (uf_headers f))
     ++ (if (5 <? List.length (uf_headers f))%nat
         then " and " ++ numToString (List.length (uf_headers f) - 5)
              ++ " more."
         else "."))
  = true.
Proof.
  intros C. rewrite (classified_answer _ _ _ C).
  cbn [spec_answer]. unfold defaultResponse. cbn [r_content].
  change (Some 5%Z) with (Some (Z.of_nat 5)).
  rewrite slice_from_start, firstn_min_length.
  change " records** with columns: " with (" records** with " ++ "columns: ").
  destruct (5 <? List.length (uf_headers f))%nat.
  - change " more." with (" more" ++ ".").
    rewrite !append_assoc. seek_pieces.
  - change (EmptyString ++ "." ++ ?r) with ("." ++ r).
    rewrite !append_assoc. seek_pieces.
Qed.

Lemma default_answer_lists_five_headers_witness :
  includes (r_content (generateMockResponse "hello" (Some sampleFile)))
    "columns: region, total." = true.
Proof.
  apply (default_answer_lists_five_headers "hello" sampleFile). reflexivity.
Defined.

(** ** More on the session store *)

Section SplitById.

Variable id : string.
Variable g : ChatSession -> ChatSession.

Lemma find_absent (l : list ChatSession) :
  ~ In id (map s_id l) -> find (fun x => s_id x =? id) l = None.
Proof.
  induction l as [|a l IH]; intros H; [reflexivity|].
  cbn [find map] in *. destruct (String.eqb_spec (s_id a) id) as [E|_].
  - elim H. now left.
  - apply IH. intros C. apply H. now right.
Qed.

Lemma find_split (before behind : list ChatSession) (s : ChatSession) :
  s_id s = id -> ~ In id (map s_id before) ->
  find (fun x => s_id x =? id) (before ++ s :: behind) = Some s.
Proof.
  intros Hid Hb. induction before as [|b before IH]; cbn [app find].
  - now rewrite Hid, String.eqb_refl.
  - cbn [map] in Hb. destruct (String.eqb_spec (s_id b) id) as [E|_].
    + elim Hb. now left.
    + apply IH. intros C. apply Hb. now right.
Qed.

Lemma update_split (before behind : list ChatSession) (s : ChatSession) :
  s_id s = id ->
  ~ In id (map s_id before) -> ~ In id (map s_id behind) ->
  map (fun x => if s_id x =? id then g x else x) (before ++ s :: behind)
  = (before ++ g s :: behind)%list.
Proof.
  intros Hid Hb Ha. rewrite map_app. cbn [map].
  rewrite (update_absent id g before Hb), (update_absent id g behind Ha).
  now rewrite Hid, String.eqb_refl.
Qed.

End SplitById.

Lemma split_by_id (l : list ChatSession) (s : ChatSession) :
  NoDup (map s_id l) -> In s l ->
  exists before behind,
    l = (before ++ s :: behind)%list
    /\ ~ In (s_id s) (map s_id before)
    /\ ~ In (s_id s) (map s_id behind).
Proof.
  intros Hnd Hin. destruct (in_split _ _ Hin) as (before & behind & ->).
  exists before, behind. rewrite map_app in Hnd. cbn [map] in Hnd.
  pose proof (NoDup_remove_2 _ _ _ Hnd) as H.
  repeat split; intros C; apply H, in_or_app; [now left | now right].
Qed.



(** X11: when nothing else happens between [sendMessage] and its timer, the
    log of the active session grows by exactly the user message followed by
    the reply, the reply being the answer of the dispatcher to that text for
    the file the session holds; nothing else changes, and [isTyping] is
    cleared. *)
Theorem send_then_reply
  (st : State) (content msgId : string) (now : Z)
  (replyId : string) (now' : Z) (s : ChatSession) :
  NoDup (sessionIds st) ->
  In s (sessions st) ->
  s_id s = activeSessionId st ->
  let sent := sendMessage content msgId now st in
  let after := sendMessage_timeout (snd sent) replyId now' (fst sent) in
  let userMsg := mkChatMessage msgId user content now None in
  let reply := aiMessage replyId now' (generateMockResponse content (s_file s)) in
  (exists before behind,
      sessions st = (before ++ s :: behind)%list
      /\ sessions after
         = (before ++ withMessage reply (withMessage userMsg s) :: behind)%list)
  /\ activeSessionId after = activeSessionId st
  /\ isTyping after = false.
Proof.
  intros Hnd Hin Hid sent after userMsg reply.
  subst sent after userMsg reply.
  destruct (split_by_id _ _ Hnd Hin) as (before & behind & Hsplit & Hb & Ha).
  unfold sendMessage_timeout, sendMessage, updateSession.
  cbn [fst snd setIsTyping setSessions sessions activeSessionId isTyping
       p_activeSessionId p_content].
  split; [|split; reflexivity].
  exists before, behind. split; [exact Hsplit|].
  rewrite Hsplit, <- Hid.
  rewrite (update_split (s_id s) _ before behind s eq_refl Hb Ha).
  rewrite (update_split (s_id s) _ before behind
             (withMessage (mkChatMessage msgId user content now None) s)
             eq_refl Hb Ha).
  rewrite (find_split (s_id s) before behind
             (withMessage (mkChatMessage msgId user content now None) s)
             eq_refl Hb).
  reflexivity.
Qed.

Lemma send_then_reply_witness :
  let sent := sendMessage "hi" "m1" 1 (initialState 0) in
  map (fun s => map m_role (s_messages s))
    (sessions (sendMessage_timeout (snd sent) "m2" 2 (fst sent)))
  = [[user; ai]].
Proof.
  cbv zeta.
  destruct (send_then_reply (initialState 0) "hi" "m1" 1 "m2" 2
              {| s_id := "default"; s_name := "Welcome Chat";
                 s_fileName := None; s_timestamp := 0; s_messages := [];
                 s_file := None |})
    as [(before & behind & Hsplit & Hafter) _].
  - vm_compute. repeat constructor. intros [].
  - left. reflexivity.
  - reflexivity.
  - cbv zeta in Hafter. rewrite Hafter.
    destruct before as [|b [|b' before]]; [|discriminate Hsplit..].
    destruct behind; [|discriminate Hsplit]. reflexivity.
Defined.

(** A session [s'] continues [s]: same id and creation time, and the log of
    [s] followed by at most one more message. *)
Lemma continues_refl (s : ChatSession) :
  exists extra,
    s_id s = s_id s /\ s_timestamp s = s_timestamp s
    /\ s_messages s = (s_messages s ++ extra)%list
    /\ List.length extra <= 1.
Proof. exists []. rewrite app_nil_r. cbn. repeat split. lia. Qed.

Ltac continue_by_cases :=
  match goal with
  | |- context [if ?c then _ else _] => destruct c
  end;
  [ eexists; cbn; split; [reflexivity|]; split; [reflexivity|];
    split; [reflexivity|]; cbn; lia
  | apply continues_refl ].

(** X12: no operation of the store shortens or rewrites a message log.
    Every session of the previous state is still there afterwards, with its
    id, its creation time and its log, the log extended by at most one
    message, unless the operation is the deletion of its id.  And every
    session of the next state is such a continuation of a previous session,
    or the chat that [createNewChat] makes, or the chat that [deleteSession]
    puts in when every session had the deleted id. *)
Theorem step_only_appends_messages (o : Op) (st : State) :
  (forall s,
      In s (sessions st) ->
      (exists id freshId now, o = OpDeleteSession id freshId now /\ s_id s = id)
      \/ exists s' extra,
           In s' (sessions (step o st))
           /\ s_id s' = s_id s
           /\ s_timestamp s' = s_timestamp s
           /\ s_messages s' = (s_messages s ++ extra)%list
           /\ List.length extra <= 1)
  /\ (forall s',
        In s' (sessions (step o st)) ->
        (exists id now, o = OpCreateNewChat id now /\ s' = newChat id now)
        \/ (exists id freshId now,
              o = OpDeleteSession id freshId now
              /\ s' = newChat freshId now
              /\ forall s, In s (sessions st) -> s_id s = id)
        \/ exists s extra,
             In s (sessions st)
             /\ s_id s' = s_id s
             /\ s_timestamp s' = s_timestamp s
             /\ s_messages s' = (s_messages s ++ extra)%list
             /\ List.length extra <= 1).
Proof.
  assert (Keep : forall s' s, In s (sessions st) ->
            (exists extra, s_id s' = s_id s /\ s_timestamp s' = s_timestamp s
               /\ s_messages s' = (s_messages s ++ extra)%list
               /\ List.length extra <= 1) ->
            exists s0 extra, In s0 (sessions st) /\ s_id s' = s_id s0
              /\ s_timestamp s' = s_timestamp s0
              /\ s_messages s' = (s_messages s0 ++ extra)%list
              /\ List.length extra <= 1).
  { intros s' s Hs (extra & H). exists s, extra. now split. }
  assert (Fwd : forall (s : ChatSession) l s', In s' l ->
            (exists extra, s_id s' = s_id s /\ s_timestamp s' = s_timestamp s
               /\ s_messages s' = (s_messages s ++ extra)%list
               /\ List.length extra <= 1) ->
            exists s0 extra, In s0 l /\ s_id s0 = s_id s
              /\ s_timestamp s0 = s_timestamp s
              /\ s_messages s0 = (s_messages s ++ extra)%list
              /\ List.length extra <= 1).
  { intros s l s' Hs (extra & H). exists s', extra. now split. }
  destruct o as [newId now|id|id freshId now|file msgId now|content msgId now
                |p msgId now]; cbn [step].
  - split.
    + intros s Hs. right.
      apply (Fwd s _ s); [now right | apply continues_refl].
    + intros s' [<-|Hin]; [left; now exists newId, now|].
      right. right. apply (Keep s' s' Hin), continues_refl.
  - split.
    + intros s Hs. right. apply (Fwd s _ s Hs), continues_refl.
    + intros s' Hin. right. right. apply (Keep s' s' Hin), continues_refl.
  - unfold deleteSession.
    destruct (filter (fun s => negb (s_id s =? id)) (sessions st))
      as [|first rest] eqn:F.
    + assert (All : forall s, In s (sessions st) -> s_id s = id).
      { intros s Hs. destruct (String.eqb_spec (s_id s) id) as [E|N];
          [exact E|].
        assert (Hf : In s (filter (fun s => negb (s_id s =? id)) (sessions st))).
        { apply filter_In. split; [exact Hs|].
          now destruct (String.eqb_spec (s_id s) id). }
        rewrite F in Hf. destruct Hf. }
      split.
      * intros s Hs. left. exists id, freshId, now. split; [reflexivity|].
        now apply All.
      * intros s' [<-|[]]. right. left. now exists id, freshId, now.
    + assert (Hsess : sessions
                        (if activeSessionId st =? id
                         then setActiveSessionId (s_id first)
                                (setSessions (fun _ => first :: rest) st)
                         else setSessions (fun _ => first :: rest) st)
                      = first :: rest)
        by (now destruct (activeSessionId st =? id)).
      rewrite Hsess, <- F. split.
      * intros s Hs. destruct (String.eqb_spec (s_id s) id) as [E|N].
        -- left. now exists id, freshId, now.
        -- right. apply (Fwd s _ s); [|apply continues_refl].
           apply filter_In. split; [exact Hs|].
           now destruct (String.eqb_spec (s_id s) id).
      * intros s' Hin. apply filter_In in Hin as [Hin _].
        right. right. apply (Keep s' s' Hin), continues_refl.
  - unfold setFile, updateSession. cbn [setSessions sessions]. split.
    + intros s Hs. right. apply (Fwd s _ _ (in_map _ _ s Hs)). cbn beta.
      continue_by_cases.
    + intros s' Hin. right. right.
      apply in_map_iff in Hin as (s & <- & Hs). apply (Keep _ s Hs).
      continue_by_cases.
  - unfold sendMessage, updateSession.
    cbn [fst setIsTyping setSessions sessions]. split.
    + intros s Hs. right. apply (Fwd s _ _ (in_map _ _ s Hs)). cbn beta.
      continue_by_cases.
    + intros s' Hin. right. right.
      apply in_map_iff in Hin as (s & <- & Hs). apply (Keep _ s Hs).
      continue_by_cases.
  - unfold sendMessage_timeout. cbn [setIsTyping setSessions sessions]. split.
    + intros s Hs. right. apply (Fwd s _ _ (in_map _ _ s Hs)). cbn beta.
      continue_by_cases.
    + intros s' Hin. right. right.
      apply in_map_iff in Hin as (s & <- & Hs). apply (Keep _ s Hs).
      continue_by_cases.
Qed.

Lemma step_only_appends_messages_witness :
  let st := fst (sendMessage "hi" "m1" 1 (initialState 0)) in
  exists s' extra,
    In s' (sessions (step (OpTimeout (mkPending "default" "hi") "m2" 2) st))
    /\ s_id s' = "default"
    /\ s_timestamp s' = 0%Z
    /\ s_messages s'
       = ([mkChatMessage "m1" user "hi" 1 None] ++ extra)%list
    /\ List.length extra <= 1.
Proof.
  cbv zeta.
  destruct (proj1 (step_only_appends_messages
                     (OpTimeout (mkPending "default" "hi") "m2" 2)
                     (fst (sendMessage "hi" "m1" 1 (initialState 0))))
              {| s_id := "default"; s_name := "Welcome Chat";
                 s_fileName := None; s_timestamp := 0;
                 s_messages := [mkChatMessage "m1" user "hi" 1 None];
                 s_file := None |})
    as [(id & freshId & now & C & _)|H].
  - left. reflexivity.
  - discriminate C.
  - exact H.
Defined.

Lemma ids_of_filter (id : string) (l : list ChatSession) :
  map s_id (filter (fun s => negb (s_id s =? id)) l)
  = filter (fun x => negb (x =? id)) (map s_id l).
Proof.
  induction l as [|a l IH]; [reflexivity|].
  cbn [filter map]. destruct (negb (s_id a =? id)); cbn [map]; now rewrite IH.
Qed.

(** X13: which sessions exist, and in which order, changes only by
    [createNewChat], which puts the new id in front, and by [deleteSession],
    which removes the given id and, when nothing is left, puts in the
    generated one; selecting, attaching a file, sending and replying keep the
    list of ids as it is. *)
Theorem sessionIds_after_step (o : Op) (st : State) :
  sessionIds (step o st)
  = match o with
    | OpCreateNewChat newId _ => newId :: sessionIds st
    | OpDeleteSession id freshId _ =>
        match filter (fun x => negb (x =? id)) (sessionIds st) with
        | [] => [freshId]
        | kept => kept
        end
    | _ => sessionIds st
    end.
Proof.
  unfold sessionIds.
  destruct o as [newId now|id|id freshId now|file msgId now|content msgId now
                |p msgId now]; cbn [step].
  - reflexivity.
  - reflexivity.
  - rewrite <- ids_of_filter. unfold deleteSession.
    destruct (filter (fun s => negb (s_id s =? id)) (sessions st))
      as [|first rest]; [reflexivity|].
    now destruct (activeSessionId st =? id).
  - unfold setFile, updateSession. cbn [setSessions sessions].
    now rewrite update_ids.
  - unfold sendMessage, updateSession.
    cbn [fst setIsTyping setSessions sessions]. now rewrite update_ids.
  - unfold sendMessage_timeout. cbn [setIsTyping setSessions sessions].
    now rewrite update_ids.
Qed.

(** X14: creating a chat and deleting it again restores the collection, but
    the active session is then the first of the collection, not the one that
    was active before; the state is restored entirely only when that was the
    first one. *)
Theorem create_then_delete
  (st : State) (newId freshId : string) (now now' : Z)
  (first : ChatSession) (rest : list ChatSession) :
  ~ In newId (sessionIds st) ->
  sessions st = first :: rest ->
  let st' := deleteSession newId freshId now' (createNewChat newId now st) in
  sessions st' = sessions st
  /\ activeSessionId st' = s_id first
  /\ isTyping st' = isTyping st
  /\ (activeSessionId st = s_id first -> st' = st).
Proof.
  intros Hfresh Hsplit st'. subst st'.
  unfold deleteSession, createNewChat.
  cbn [setActiveSessionId setSessions sessions activeSessionId isTyping
       filter newChat s_id].
  rewrite !String.eqb_refl. cbn [negb].
  rewrite filter_keeps_all.
  - rewrite Hsplit.
    cbn [setActiveSessionId setSessions sessions activeSessionId isTyping].
    repeat split. intros E. destruct st as [ss act typing]. cbn in *.
    now subst.
  - intros x Hx. destruct (String.eqb_spec (s_id x) newId) as [E|_];
      [|reflexivity].
    elim Hfresh. unfold sessionIds. rewrite <- E. now apply in_map.
Qed.

Lemma create_then_delete_witness :
  let st := createNewChat "A" 1 (initialState 0) in
  let st' := deleteSession "B" "F" 3 (createNewChat "B" 2 st) in
  st' = st.
Proof.
  cbv zeta.
  apply (create_then_delete (createNewChat "A" 1 (initialState 0))
           "B" "F" 2 3 (newChat "A" 1) (sessions (initialState 0))).
  - vm_compute. intros [C|[C|C]]; [discriminate C | discriminate C | exact C].
  - reflexivity.
  - reflexivity.
Defined.

(** After the round trip the previously active session is no longer the
    active one when it was not the first. *)
Example create_then_delete_moves_selection :
  let st := setActiveSessionId "default" (createNewChat "A" 1 (initialState 0)) in
  activeSessionId st = "default"
  /\ activeSessionId (deleteSession "B" "F" 3 (createNewChat "B" 2 st)) = "A".
Proof. split; reflexivity. Qed.

(** X15: deleting a session other than the active one keeps the active id and
    [isTyping], and removes exactly the sessions with the given id, the others
    staying in their order. *)
Theorem deleteSession_of_other_session
  (st : State) (id freshId : string) (now : Z) :
  activeSessionId st <> id ->
  In (activeSessionId st) (sessionIds st) ->
  let st' := deleteSession id freshId now st in
  activeSessionId st' = activeSessionId st
  /\ isTyping st' = isTyping st
  /\ sessions st' = filter (fun s => negb (s_id s =? id)) (sessions st)
  /\ (forall s, In s (sessions st') <-> In s (sessions st) /\ s_id s <> id).
Proof.
  intros Hne Hact st'. subst st'. unfold deleteSession.
  assert (Hkeep : forall s, In s (filter (fun s => negb (s_id s =? id)) (sessions st))
                            <-> In s (sessions st) /\ s_id s <> id).
  { intros s. rewrite filter_In, negb_true_iff, String.eqb_neq. tauto. }
  destruct (filter (fun s => negb (s_id s =? id)) (sessions st))
    as [|first rest] eqn:F.
  - exfalso. unfold sessionIds in Hact.
    apply in_map_iff in Hact as (x & Hx & Hin).
    apply (proj2 (Hkeep x)). split; [exact Hin | now rewrite Hx].
  - destruct (String.eqb_spec (activeSessionId st) id) as [E|_];
      [now elim Hne|].
    cbn [setSessions sessions activeSessionId isTyping].
    split; [reflexivity|]. split; [reflexivity|]. split; [reflexivity|].
    exact Hkeep.
Qed.

Lemma deleteSession_of_other_session_witness :
  let st := createNewChat "A" 1 (initialState 0) in
  activeSessionId (deleteSession "default" "F" 2 st) = "A"
  /\ sessionIds (deleteSession "default" "F" 2 st) = ["A"].
Proof.
  cbv zeta. split; [|reflexivity].
  apply (deleteSession_of_other_session
           (createNewChat "A" 1 (initialState 0)) "default" "F" 2).
  - discriminate.
  - left. reflexivity.
Defined.

Lemma fileOf_find_update (t t' : string) (g : ChatSession -> ChatSession)
  (l : list ChatSession) :
  (forall s, s_id (g s) = s_id s) ->
  (forall s, s_file (g s) = s_file s) ->
  fileOf (find (fun s => s_id s =? t)
            (map (fun s => if s_id s =? t' then g s else s) l))
  = fileOf (find (fun s => s_id s =? t) l).
Proof.
  intros Hid Hfile. induction l as [|a l IH]; [reflexivity|].
  cbn [map find].
  destruct (s_id a =? t') eqn:E'.
  - rewrite Hid. destruct (s_id a =? t); [cbn [fileOf]; apply Hfile | exact IH].
  - destruct (s_id a =? t); [reflexivity | exact IH].
Qed.

(** X16: replies to different sessions do not depend on the order in which
    their timers fire, apart from what the environment gives each reply when
    it is made (its generated id and its time): whichever fires first, and
    whatever ids and times the replies get, every session ends with the same
    id, name, file and creation time and with the same roles, contents and
    tables in its log, and the active id and [isTyping] are the same. *)
Theorem replies_to_different_sessions_commute
  (p1 p2 : Pending) (st : State)
  (id1 id2 id1' id2' : string) (now1 now2 now1' now2' : Z) :
  p_activeSessionId p1 <> p_activeSessionId p2 ->
  stateText
    (sendMessage_timeout p1 id1 now1 (sendMessage_timeout p2 id2 now2 st))
  = stateText
      (sendMessage_timeout p2 id2' now2' (sendMessage_timeout p1 id1' now1' st)).
Proof.
  intros Hne. unfold stateText, sendMessage_timeout, setIsTyping, setSessions.
  cbn [sessions activeSessionId isTyping].
  set (t1 := p_activeSessionId p1) in *. set (t2 := p_activeSessionId p2) in *.
  set (a1 := generateMockResponse (p_content p1)
               (fileOf (find (fun s => s_id s =? t1) (sessions st)))).
  set (a2 := generateMockResponse (p_content p2)
               (fileOf (find (fun s => s_id s =? t2) (sessions st)))).
  rewrite (fileOf_find_update t1 t2 (withMessage (aiMessage id2 now2 a2))
             (sessions st)) by reflexivity.
  rewrite (fileOf_find_update t2 t1 (withMessage (aiMessage id1' now1' a1))
             (sessions st)) by reflexivity.
  fold a1 a2. do 2 f_equal. rewrite !map_map. apply map_ext. intros s.
  destruct (String.eqb_spec (s_id s) t1) as [E1|N1];
    destruct (String.eqb_spec (s_id s) t2) as [E2|N2];
    cbn [withMessage s_id].
  - elim Hne. now rewrite <- E1, <- E2.
  - destruct (String.eqb_spec (s_id s) t1); [|contradiction].
    destruct (String.eqb_spec (s_id s) t2); [contradiction|].
    unfold sessionText. cbn. now rewrite !map_app.
  - destruct (String.eqb_spec (s_id s) t1); [contradiction|].
    destruct (String.eqb_spec (s_id s) t2); [|contradiction].
    unfold sessionText. cbn. now rewrite !map_app.
  - destruct (String.eqb_spec (s_id s) t1); [contradiction|].
    destruct (String.eqb_spec (s_id s) t2); [contradiction|].
    reflexivity.
Qed.

Lemma replies_to_different_sessions_commute_witness :
  let stA := createNewChat "A" 1 (initialState 0) in
  let pA := mkPending "A" "count" in
  let pD := mkPending "default" "summary" in
  stateText (sendMessage_timeout pA "m1" 3 (sendMessage_timeout pD "m2" 2 stA))
  = stateText (sendMessage_timeout pD "m4" 5 (sendMessage_timeout pA "m3" 4 stA))
  /\ map (fun s => map m_content (s_messages s))
       (sessions (sendMessage_timeout pA "m1" 3
                    (sendMessage_timeout pD "m2" 2 stA)))
     = [[r_content uploadPrompt]; [r_content uploadPrompt]].
Proof.
  cbv zeta. split; [|reflexivity].
  apply (replies_to_different_sessions_commute
           (mkPending "A" "count") (mkPending "default" "summary")).
  discriminate.
Defined.

(** The states themselves differ by the time each reply was made. *)
Example replies_in_either_order_differ_in_time :
  let stA := createNewChat "A" 1 (initialState 0) in
  let pA := mkPending "A" "count" in
  let pD := mkPending "default" "summary" in
  sendMessage_timeout pA "m1" 3 (sendMessage_timeout pD "m2" 2 stA)
  <> sendMessage_timeout pD "m2" 3 (sendMessage_timeout pA "m1" 2 stA).
Proof. cbv zeta. intros C. discriminate C. Qed.

(** Replies to one session do not commute: the log keeps the order in which
    the timers fired. *)
Example replies_to_one_session_keep_firing_order :
  let p1 := mkPending "default" "first" in
  let p2 := mkPending "default" "second" in
  map (fun s => map m_id (s_messages s))
    (sessions (sendMessage_timeout p2 "r2" 2
                 (sendMessage_timeout p1 "r1" 1 (initialState 0))))
  = [["r1"; "r2"]]
  /\ map (fun s => map m_id (s_messages s))
       (sessions (sendMessage_timeout p1 "r1" 1
                    (sendMessage_timeout p2 "r2" 2 (initialState 0))))
     = [["r2"; "r1"]].
Proof. split; reflexivity. Qed.

(** ** What the hook shows *)

Lemma activeSession_of_wellFormed (st : State) :
  wellFormed st ->
  exists s,
    In s (sessions st) /\ s_id s = activeSessionId st
    /\ activeSession st = Some s
    /\ (forall s2, In s2 (sessions st) -> s_id s2 = activeSessionId st -> s2 = s).
Proof.
  intros [Hnd Hact]. unfold sessionIds in *.
  apply in_map_iff in Hact as (s & Hid & Hin).
  exists s. split; [exact Hin|]. split; [exact Hid|].
  destruct (split_by_id _ _ Hnd Hin) as (before & behind & Hsplit & Hb & Ha).
  rewrite Hid in Hb, Ha. split.
  - unfold activeSession. rewrite Hsplit.
    now rewrite (find_split (activeSessionId st) before behind s Hid Hb).
  - intros s2 Hin2 Hid2. rewrite Hsplit in Hin2.
    apply in_app_or in Hin2 as [C|[C|C]].
    + elim Hb. rewrite <- Hid2. now apply in_map.
    + now symmetry.
    + elim Ha. rewrite <- Hid2. now apply in_map.
Qed.

(** X17: in every reachable state the hook can be rendered (reading the
    active session never fails), and what it shows as messages and current
    file are those of the one session that has the active id; the session
    list it shows has one entry per session, in order. *)
Theorem view_shows_the_active_session (st : State) :
  reachable st ->
  exists s v,
    view st = Some v
    /\ In s (sessions st)
    /\ s_id s = activeSessionId st
    /\ (forall s2, In s2 (sessions st) -> s_id s2 = activeSessionId st -> s2 = s)
    /\ v_activeMessages v = s_messages s
    /\ v_currentFile v = s_file s
    /\ v_activeSessionId v = activeSessionId st
    /\ map si_id (v_sessions v) = sessionIds st.
Proof.
  intros R. apply reachable_wellFormed in R.
  destruct (activeSession_of_wellFormed st R) as (s & Hin & Hid & Hact & Huniq).
  exists s. unfold view. rewrite Hact. eexists. split; [reflexivity|].
  cbn [v_activeMessages v_currentFile v_activeSessionId v_sessions].
  repeat split; try assumption.
  rewrite map_map. reflexivity.
Qed.

Lemma view_shows_the_active_session_witness :
  exists s v,
    view (createNewChat "A" 1 (initialState 0)) = Some v
    /\ In s (sessions (createNewChat "A" 1 (initialState 0)))
    /\ s_id s = "A"
    /\ v_activeMessages v = s_messages s.
Proof.
  destruct (view_shows_the_active_session
              (createNewChat "A" 1 (initialState 0)))
    as (s & v & H1 & H2 & H3 & _ & H4 & _).
  - apply (reachable_step (OpCreateNewChat "A" 1) (initialState 0)
             (reachable_initial 0)).
    cbn. intros [C|C]; [discriminate C | exact C].
  - exists s, v. repeat split; assumption.
Defined.

(** X18: in every reachable state the session ids are pairwise distinct and
    the active id is one of them. *)
Theorem reachable_ids_are_distinct (st : State) :
  reachable st ->
  NoDup (sessionIds st) /\ In (activeSessionId st) (sessionIds st).
Proof. apply reachable_wellFormed. Qed.

Lemma reachable_ids_are_distinct_witness :
  NoDup (sessionIds (createNewChat "A" 1 (initialState 0))).
Proof.
  apply (reachable_ids_are_distinct (createNewChat "A" 1 (initialState 0))).
  apply (reachable_step (OpCreateNewChat "A" 1) (initialState 0)
           (reachable_initial 0)).
  cbn. intros [C|C]; [discriminate C | exact C].
Defined.

(** X19: when the active id names no session, the hook shows the first
    session of the collection, but a file attached or a message sent then
    reaches no session at all: the collection stays as it is, the reply
    included. *)
Theorem dangling_active_id_drops_input
  (st : State) (first : ChatSession) (rest : list ChatSession)
  (file : UploadedFile) (content msgId replyId : string) (now now' : Z) :
  ~ In (activeSessionId st) (sessionIds st) ->
  sessions st = first :: rest ->
  let sent := sendMessage content msgId now st in
  (exists v, view st = Some v
             /\ v_activeMessages v = s_messages first
             /\ v_currentFile v = s_file first)
  /\ sessions (setFile file msgId now st) = sessions st
  /\ sessions (fst sent) = sessions st
  /\ sessions (sendMessage_timeout (snd sent) replyId now' (fst sent))
     = sessions st.
Proof.
  intros Habsent Hsplit sent. subst sent. unfold sessionIds in Habsent.
  split.
  - unfold view, activeSession.
    rewrite (find_absent _ _ Habsent), Hsplit. cbn [hd_error].
    eexists. split; [reflexivity|]. split; reflexivity.
  - unfold setFile, sendMessage_timeout, sendMessage, updateSession.
    cbn [fst snd setIsTyping setSessions sessions p_activeSessionId].
    split; [now apply update_absent|].
    rewrite (update_absent (activeSessionId st) _ (sessions st) Habsent).
    split; [reflexivity|]. now apply update_absent.
Qed.

Lemma dangling_active_id_drops_input_witness :
  let st := setActiveSessionId "ghost" (initialState 0) in
  sessions (setFile sampleFile "m1" 1 st) = sessions st.
Proof.
  cbv zeta.
  apply (dangling_active_id_drops_input
           (setActiveSessionId "ghost" (initialState 0))
           {| s_id := "default"; s_name := "Welcome Chat";
              s_fileName := None; s_timestamp := 0; s_messages := [];
              s_file := None |} [] sampleFile "hi" "m1" "m2" 1 2).
  - cbn. intros [C|C]; [discriminate C | exact C].
  - reflexivity.
Defined.

(** ** More on attaching files *)

(** X20: the name [setFile] gives a session is the file name without one
    suffix, and that suffix is either empty or one of the three extensions in
    some letter case; it is empty exactly when the file name ends in none of
    them.  Only the last extension goes: a.csv.xls becomes a.csv. *)
Theorem replaceExtension_removes_one_suffix (name : string) :
  exists ext,
    name = replaceExtension name ++ ext
    /\ (ext = EmptyString \/ In (toLowerCase ext) [".xlsx"; ".xls"; ".csv"])
    /\ (ext = EmptyString
        <-> forall base e,
              name = base ++ e ->
              ~ In (toLowerCase e) [".xlsx"; ".xls"; ".csv"]).
Proof.
  induction name as [|c r IH]; rewrite replaceExtension_unfold.
  - exists EmptyString. cbn. split; [reflexivity|]. split; [now left|].
    split; [|reflexivity]. intros _ base e E.
    destruct base; [|discriminate E]. cbn in E. subst e. cbn.
    intros [C|[C|[C|[]]]]; discriminate C.
  - destruct (matchesExtension (String c r)) eqn:M.
    + exists (String c r). split; [reflexivity|].
      apply matchesExtension_cases in M. split; [now right|].
      split; [discriminate|]. intros H. elim (H EmptyString (String c r) eq_refl M).
    + destruct IH as (ext & Hsplit & Hext & Hiff).
      exists ext. split; [cbn [append]; now rewrite <- Hsplit|].
      split; [exact Hext|]. split.
      * intros E base e Hname Hin. destruct base as [|c' base].
        -- cbn in Hname. subst e. apply matchesExtension_cases in Hin.
           congruence.
        -- cbn [append] in Hname. injection Hname as _ Hr.
           exact (proj1 Hiff E base e Hr Hin).
      * intros H. apply Hiff. intros base e Hr.
        apply (H (String c base) e). cbn [append]. now rewrite Hr.
Qed.

Example replaceExtension_is_not_repeated :
  replaceExtension "a.csv.xls" = "a.csv"
  /\ replaceExtension (replaceExtension "a.csv.xls") = "a"
  /\ replaceExtension ".CSV" = EmptyString.
Proof. repeat split. Qed.

(** X21: attaching a second file to the session replaces the first one
    wholesale (file, file name and session name are those of the second),
    while both announcements stay in the log, in order. *)
Theorem setFile_again_replaces_file
  (st : State) (f1 f2 : UploadedFile) (m1 m2 : string) (n1 n2 : Z)
  (s : ChatSession) :
  NoDup (sessionIds st) ->
  In s (sessions st) ->
  s_id s = activeSessionId st ->
  let after := setFile f2 m2 n2 (setFile f1 m1 n1 st) in
  exists before behind s',
    sessions st = (before ++ s :: behind)%list
    /\ sessions after = (before ++ s' :: behind)%list
    /\ s_id s' = s_id s
    /\ s_file s' = Some f2
    /\ s_fileName s' = Some (uf_name f2)
    /\ s_name s' = replaceExtension (uf_name f2)
    /\ s_messages s'
       = (s_messages s
          ++ [ mkChatMessage m1 ai (fileLoadedContent f1) n1 None;
               mkChatMessage m2 ai (fileLoadedContent f2) n2 None ])%list.
Proof.
  intros Hnd Hin Hid after. subst after.
  destruct (split_by_id _ _ Hnd Hin) as (before & behind & Hsplit & Hb & Ha).
  exists before, behind.
  unfold setFile, updateSession.
  cbn [setSessions sessions activeSessionId].
  rewrite Hsplit, <- Hid.
  eexists. split; [reflexivity|]. split.
  - etransitivity.
    + apply f_equal. now apply update_split.
    + now apply update_split.
  - cbn. rewrite <- app_assoc. repeat split.
Qed.

Lemma setFile_again_replaces_file_witness :
  let other := mkUploadedFile "old.csv" ["s"] "s" [] [] 0 in
  map (fun s => (s_name s, s_fileName s, List.length (s_messages s)))
    (sessions (setFile sampleFile "m2" 2
                 (setFile other "m1" 1 (initialState 0))))
  = [("Q3", Some "Q3.xlsx", 2)].
Proof.
  cbv zeta.
  destruct (setFile_again_replaces_file (initialState 0)
              (mkUploadedFile "old.csv" ["s"] "s" [] [] 0) sampleFile
              "m1" "m2" 1 2
              {| s_id := "default"; s_name := "Welcome Chat";
                 s_fileName := None; s_timestamp := 0; s_messages := [];
                 s_file := None |})
    as (before & behind & s' & Hsplit & Hafter & _ & _ & Hfn & Hname & Hmsgs).
  - vm_compute. repeat constructor. intros [].
  - left. reflexivity.
  - reflexivity.
  - cbv zeta in Hafter. rewrite Hafter.
    destruct before as [|b [|b' before]]; [|discriminate Hsplit..].
    destruct behind; [|discriminate Hsplit].
    cbn [app map]. now rewrite Hname, Hfn, Hmsgs.
Defined.

(** ** From the upload to the answer *)

Lemma send_then_reply_in_place
  (st : State) (content msgId : string) (now : Z) (replyId : string) (now' : Z)
  (before behind : list ChatSession) (s : ChatSession) :
  sessions st = (before ++ s :: behind)%list ->
  s_id s = activeSessionId st ->
  ~ In (s_id s) (map s_id before) ->
  ~ In (s_id s) (map s_id behind) ->
  let sent := sendMessage content msgId now st in
  sessions (sendMessage_timeout (snd sent) replyId now' (fst sent))
  = (before
     ++ withMessage
          (aiMessage replyId now' (generateMockResponse content (s_file s)))
          (withMessage (mkChatMessage msgId user content now None) s)
     :: behind)%list.
Proof.
  intros Hsplit Hid Hb Ha sent. subst sent.
  unfold sendMessage_timeout, sendMessage, updateSession.
  cbn [fst snd setIsTyping setSessions sessions activeSessionId isTyping
       p_activeSessionId p_content].
  rewrite Hsplit, <- Hid.
  rewrite (update_split (s_id s) _ before behind s eq_refl Hb Ha).
  rewrite (update_split (s_id s) _ before behind
             (withMessage (mkChatMessage msgId user content now None) s)
             eq_refl Hb Ha).
  rewrite (find_split (s_id s) before behind
             (withMessage (mkChatMessage msgId user content now None) s)
             eq_refl Hb).
  reflexivity.
Qed.

Section UploadAndAsk.

Variable asStrings : list Cell -> list (option string).

(** X22: a confirmed upload followed by a question and its reply, with
    nothing in between, adds three messages to the active session and changes
    no other session: the announcement of the file, the question, and the
    answer of the dispatcher to that question for the uploaded file, whose
    data rows are the rows of the selected sheet after the first. *)
Theorem upload_then_ask
  (ps : PanelState) (parsed : ParsedFile) (sheetName : string)
  (st : State) (s : ChatSession)
  (question m0 m1 m2 : string) (n0 n1 n2 : Z) :
  parsedFile ps = Some parsed ->
  selectedSheet ps = Some sheetName ->
  sheetName <> EmptyString ->
  NoDup (sessionIds st) ->
  In s (sessions st) ->
  s_id s = activeSessionId st ->
  let st1 := snd (confirmUpload asStrings m0 n0 ps st) in
  let sent := sendMessage question m1 n1 st1 in
  let after := sendMessage_timeout (snd sent) m2 n2 (fst sent) in
  exists file before behind s',
    snd (handleConfirm asStrings ps) = Some file
    /\ uf_data file = tl (sheetToJson (pf_workbook parsed) sheetName)
    /\ sessions st = (before ++ s :: behind)%list
    /\ sessions after = (before ++ s' :: behind)%list
    /\ s_file s' = Some file
    /\ s_messages s'
       = (s_messages s
          ++ [ mkChatMessage m0 ai (fileLoadedContent file) n0 None;
               mkChatMessage m1 user question n1 None;
               aiMessage m2 n2 (generateMockResponse question (Some file)) ])%list.
Proof.
  intros Hp Hs Hn Hnd Hin Hid st1 sent after. subst st1 sent after.
  destruct (split_by_id _ _ Hnd Hin) as (before & behind & Hsplit & Hb & Ha).
  unfold confirmUpload.
  rewrite (handleConfirm_uploads asStrings ps parsed sheetName Hp Hs Hn).
  cbn [snd].
  match goal with
  | |- context [Some ?f] => lazymatch type of f with
                            | UploadedFile => set (file := f)
                            end
  end.
  set (announce := mkChatMessage m0 ai (fileLoadedContent file) n0 None).
  set (sF := {| s_id := s_id s;
                s_name := replaceExtension (uf_name file);
                s_fileName := Some (uf_name file);
                s_timestamp := s_timestamp s;
                s_messages := (s_messages s ++ [announce])%list;
                s_file := Some file |}).
  assert (E1 : sessions (setFile file m0 n0 st)
               = (before ++ sF :: behind)%list).
  { unfold setFile, updateSession. cbn [setSessions sessions].
    rewrite Hsplit, <- Hid. now apply update_split. }
  exists file, before, behind. eexists.
  split; [reflexivity|]. split; [reflexivity|]. split; [exact Hsplit|].
  split.
  - apply (send_then_reply_in_place (setFile file m0 n0 st) question m1 n1
             m2 n2 before behind sF E1); [exact Hid | exact Hb | exact Ha].
  - subst sF. cbn [withMessage s_file s_messages].
    split; [reflexivity|]. rewrite <- !app_assoc. reflexivity.
Qed.

End UploadAndAsk.

Lemma upload_then_ask_witness :
  let st1 := snd (confirmUpload textCells "m0" 1 samplePanel (initialState 0)) in
  let sent := sendMessage "show me" "m1" 2 st1 in
  let after := sendMessage_timeout (snd sent) "m2" 3 (fst sent) in
  map (fun s => map m_table (s_messages s)) (sessions after)
  = [[ None; None;
       Some {| t_headers := [Some "region"; Some "total"];
               t_rows := [ [CellText "north"; CellNumber 10];
                           [CellText "south"; CellNumber 20] ] |} ]].
Proof.
  cbv zeta.
  destruct (upload_then_ask textCells samplePanel
              {| pf_name := "Q3.xlsx"; pf_workbook := sampleBook;
                 pf_sheets := ["Sales"; "Costs"] |} "Sales"
              (initialState 0)
              {| s_id := "default"; s_name := "Welcome Chat";
                 s_fileName := None; s_timestamp := 0; s_messages := [];
                 s_file := None |}
              "show me" "m0" "m1" "m2" 1 2 3)
    as (file & before & behind & s' & Hfile & _ & Hsplit & Hafter & _ & Hmsgs).
  - reflexivity.
  - reflexivity.
  - discriminate.
  - vm_compute. repeat constructor. intros [].
  - left. reflexivity.
  - reflexivity.
  - cbv zeta in Hafter. rewrite Hafter.
    destruct before as [|b [|b' before]]; [|discriminate Hsplit..].
    destruct behind; [|discriminate Hsplit].
    cbn [app map]. rewrite Hmsgs.
    assert (E : file = sampleFile)
      by (cbv in Hfile; injection Hfile as <-; reflexivity).
    subst file. reflexivity.
Defined.

(** ** What [handleSend] sends *)

Section TrimSurroundings.

Lemma revString_append (a b : string) :
  revString (a ++ b) = revString b ++ revString a.
Proof.
  induction a as [|c a IH]; cbn [append revString].
  - now rewrite append_empty_r.
  - now rewrite IH, append_assoc.
Qed.

Lemma revString_involutive (s : string) : revString (revString s) = s.
Proof.
  induction s as [|c s IH]; [reflexivity|].
  cbn [revString]. rewrite revString_append, IH. reflexivity.
Qed.

Lemma revString_length (s : string) :
  String.length (revString s) = String.length s.
Proof.
  induction s as [|c s IH]; [reflexivity|].
  cbn [revString String.length]. rewrite length_append, IH. cbn. lia.
Qed.

Lemma blank_app (l r : list string) : blank (l ++ r) = blank l ++ blank r.
Proof.
  induction l as [|w l IH]; [reflexivity|].
  cbn [app blank fold_right]. fold (blank (l ++ r)). fold (blank l).
  now rewrite IH, append_assoc.
Qed.

Lemma revString_blank (r : list string) :
  revString (blank r) = blank (rev (map revString r)).
Proof.
  induction r as [|w r IH]; [reflexivity|].
  cbn [blank fold_right map rev]. fold (blank r).
  rewrite revString_append, IH, blank_app.
  cbn [blank fold_right]. now rewrite append_empty_r.
Qed.

Lemma leading_reversed (w rest : string) :
  In w whiteSpace ->
  leading (map revString whiteSpace) (revString w ++ rest)
  = Some (revString w).
Proof.
  unfold whiteSpace. intros H.
  repeat (destruct H as [<-|H]; [destruct rest; reflexivity|]).
  destruct H.
Qed.

Ltac no_leading c H :=
  cbn [find prefix];
  repeat match goal with
         | |- context [ascii_dec ?a c] =>
             destruct (ascii_dec a c) as [E|_];
             [exfalso; rewrite <- E in H; vm_compute in H; discriminate H|]
         end;
  reflexivity.

Lemma leading_visible (c : ascii) (rest : string) :
  visible c = true -> leading whiteSpace (String c rest) = None.
Proof.
  intros H. unfold leading, whiteSpace, b3, b2, b1. no_leading c H.
Qed.

Lemma leading_reversed_visible (c : ascii) (rest : string) :
  visible c = true ->
  leading (map revString whiteSpace) (String c rest) = None.
Proof.
  intros H. unfold leading.
  cbv [map revString whiteSpace b3 b2 b1 append]. no_leading c H.
Qed.

(** Stripping removes the listed pieces from the front and stops at the
    first text that starts with none. *)
Lemma stripFront_pieces (ws pieces : list string) (rest : string) :
  (forall w r, In w pieces -> leading ws (w ++ r) = Some w) ->
  leading ws rest = None ->
  forall fuel, List.length pieces <= fuel ->
  stripFront fuel ws (blank pieces ++ rest) = rest.
Proof.
  intros Hw Hrest. induction pieces as [|w pieces IH]; intros fuel Hfuel.
  - cbn [blank fold_right append]. destruct fuel; [reflexivity|].
    cbn [stripFront]. now rewrite Hrest.
  - destruct fuel as [|fuel]; [cbn in Hfuel; lia|].
    cbn [blank fold_right stripFront]. fold (blank pieces).
    rewrite append_assoc, (Hw w _ (or_introl eq_refl)), substring_drop.
    apply IH; [|cbn in Hfuel; lia].
    intros w' r Hin. apply Hw. now right.
Qed.

(** [trim] removes white space around a text that starts and ends with a
    visible character, and nothing else. *)
Lemma trim_surroundings (l r : list string) (core : string) :
  Forall (fun w => In w whiteSpace) l ->
  Forall (fun w => In w whiteSpace) r ->
  startsVisible core = true ->
  endsVisible core = true ->
  trim (blank l ++ core ++ blank r) = core.
Proof.
  intros Hl Hr Hstart Hend. unfold trim.
  assert (E : trimStart (blank l ++ core ++ blank r) = core ++ blank r).
  { unfold trimStart. apply stripFront_pieces.
    - intros w rest Hin. apply leading_whiteSpace.
      rewrite Forall_forall in Hl. now apply Hl.
    - destruct core as [|c core]; [discriminate Hstart|].
      cbn [append]. now apply leading_visible.
    - rewrite length_append. pose proof (blank_length l Hl). lia. }
  rewrite E. unfold trimEnd.
  rewrite revString_append, revString_blank.
  rewrite stripFront_pieces; [apply revString_involutive| | |].
  - intros w rest Hin. apply in_rev in Hin.
    apply in_map_iff in Hin as (w0 & <- & Hin0).
    apply leading_reversed. rewrite Forall_forall in Hr. now apply Hr.
  - unfold endsVisible in Hend.
    destruct (revString core) as [|c rc]; [discriminate Hend|].
    now apply leading_reversed_visible.
  - rewrite length_rev, length_map, length_append.
    pose proof (blank_length r Hr). lia.
Qed.

End TrimSurroundings.

(** X23: for an input that is a text starting and ending with a visible
    character, wrapped in any white space (spaces, tabs, line breaks, the
    Unicode spaces), [handleSend] empties the text box and sends exactly the
    text without the wrapping: that is the content of the user message. *)
Theorem handleSend_sends_trimmed_text
  (l r : list string) (core msgId : string) (now : Z) (st : State) :
  Forall (fun w => In w whiteSpace) l ->
  Forall (fun w => In w whiteSpace) r ->
  startsVisible core = true ->
  endsVisible core = true ->
  handleSend (blank l ++ core ++ blank r) msgId now st
  = (EmptyString, fst (sendMessage core msgId now st),
     Some {| p_activeSessionId := activeSessionId st; p_content := core |}).
Proof.
  intros Hl Hr Hstart Hend. unfold handleSend.
  rewrite (trim_surroundings l r core Hl Hr Hstart Hend).
  destruct core as [|c core]; [discriminate Hstart|]. reflexivity.
Qed.

Lemma handleSend_sends_trimmed_text_witness :
  handleSend ("  " ++ nl ++ "how many rows?" ++ b2 194 160 ++ " ")
    "m1" 1 (initialState 0)
  = (EmptyString, fst (sendMessage "how many rows?" "m1" 1 (initialState 0)),
     Some {| p_activeSessionId := "default"; p_content := "how many rows?" |}).
Proof.
  apply (handleSend_sends_trimmed_text [" "; " "; nl] [b2 194 160; " "]
           "how many rows?" "m1" 1 (initialState 0)).
  - repeat constructor; vm_compute; tauto.
  - repeat constructor; vm_compute; tauto.
  - reflexivity.
  - reflexivity.
Defined.

(** ** Invariants of the sessions of a run *)

Section SessionInvariant.

Variable P : ChatSession -> Prop.

Hypothesis P_initial : forall now,
  P {| s_id := "default"; s_name := "Welcome Chat"; s_fileName := None;
       s_timestamp := now; s_messages := []; s_file := None |}.
Hypothesis P_newChat : forall id now, P (newChat id now).
Hypothesis P_user : forall s msgId content now,
  P s -> P (withMessage (mkChatMessage msgId user content now None) s).
Hypothesis P_reply : forall s msgId now question file,
  P s ->
  P (withMessage (aiMessage msgId now (generateMockResponse question file)) s).
Hypothesis P_file : forall s file msgId now,
  P s ->
  P {| s_id := s_id s;
       s_name := replaceExtension (uf_name file);
       s_fileName := Some (uf_name file);
       s_timestamp := s_timestamp s;
       s_messages :=
         (s_messages s
          ++ [mkChatMessage msgId ai (fileLoadedContent file) now None])%list;
       s_file := Some file |}.

Lemma Forall_update (id : string) (g : ChatSession -> ChatSession)
  (l : list ChatSession) :
  (forall s, P s -> P (g s)) ->
  Forall P l -> Forall P (map (fun s => if s_id s =? id then g s else s) l).
Proof.
  intros Hg H. induction H as [|a l Ha _ IH]; cbn [map]; constructor.
  - destruct (s_id a =? id); [now apply Hg | exact Ha].
  - exact IH.
Qed.

Lemma Forall_filter_sessions (p : ChatSession -> bool) (l : list ChatSession) :
  Forall P l -> Forall P (filter p l).
Proof.
  intros H. apply Forall_forall. intros x Hx. apply filter_In in Hx as [Hx _].
  rewrite Forall_forall in H. now apply H.
Qed.

(** A property of sessions that the initial session and new chats have, and
    that recording a user message, a reply and a file keep, holds of every
    session of every state of a run. *)
Lemma reachable_sessions (st : State) : reachable st -> Forall P (sessions st).
Proof.
  induction 1 as [now|o st _ IH _].
  - cbn. constructor; [apply P_initial | constructor].
  - destruct o as [newId now|id|id freshId now|file msgId now
                  |content msgId now|p msgId now]; cbn [step].
    + cbn. constructor; [apply P_newChat | exact IH].
    + exact IH.
    + unfold deleteSession.
      pose proof (Forall_filter_sessions
                    (fun s => negb (s_id s =? id)) _ IH) as F.
      destruct (filter (fun s => negb (s_id s =? id)) (sessions st))
        as [|first rest].
      * cbn. constructor; [apply P_newChat | constructor].
      * now destruct (activeSessionId st =? id).
    + unfold setFile, updateSession. cbn [setSessions sessions].
      apply Forall_update; [|exact IH]. intros s. apply P_file.
    + unfold sendMessage, updateSession.
      cbn [fst setIsTyping setSessions sessions].
      apply Forall_update; [|exact IH]. intros s. apply P_user.
    + unfold sendMessage_timeout. cbn [setIsTyping setSessions sessions].
      apply Forall_update; [|exact IH]. intros s. apply P_reply.
Qed.

End SessionInvariant.

Lemma response_table_rows (question : string) (file : option UploadedFile)
  (t : Table) :
  r_table (generateMockResponse question file) = Some t ->
  List.length (t_rows t) <= 5.
Proof.
  rewrite generateMockResponse_classify.
  destruct file as [f|]; [|discriminate].
  destruct (spec_classify question (Some f)); cbn [spec_answer];
    try discriminate; intros H; injection H as <-; cbn [t_rows].
  - change (Some 5%Z) with (Some (Z.of_nat 5)).
    rewrite slice_from_start, length_firstn. lia.
  - change (-5)%Z with (- Z.of_nat 5)%Z. rewrite slice_from_end by lia.
    rewrite length_skipn. lia.
Qed.

(** X24: throughout a run, the file name the sidebar shows for a session and
    the name of the session agree with the file bound to it: a session with a
    file is named after that file and shows its name; a session without file
    shows no file name and still has its initial name. *)
Theorem reachable_names_follow_files (st : State) (s : ChatSession) :
  reachable st ->
  In s (sessions st) ->
  match s_file s with
  | Some file =>
      s_fileName s = Some (uf_name file)
      /\ s_name s = replaceExtension (uf_name file)
  | None =>
      s_fileName s = None
      /\ (s_name s = "New Chat" \/ s_name s = "Welcome Chat")
  end.
Proof.
  intros R Hin.
  assert (Hall : Forall
                   (fun s => match s_file s with
                             | Some file =>
                                 s_fileName s = Some (uf_name file)
                                 /\ s_name s = replaceExtension (uf_name file)
                             | None =>
                                 s_fileName s = None
                                 /\ (s_name s = "New Chat"
                                     \/ s_name s = "Welcome Chat")
                             end)
                   (sessions st)).
  { apply reachable_sessions; try exact R.
    - intros now0. cbn. split; [reflexivity | now right].
    - intros id0 now0. cbn. split; [reflexivity | now left].
    - intros s0 msgId content now IH. exact IH.
    - intros s0 msgId now question file IH. exact IH.
    - intros s0 file msgId now _. cbn. split; reflexivity. }
  rewrite Forall_forall in Hall. exact (Hall s Hin).
Qed.

Lemma reachable_names_follow_files_witness :
  let s := {| s_id := "default"; s_name := "Q3";
              s_fileName := Some "Q3.xlsx"; s_timestamp := 0;
              s_messages :=
                [mkChatMessage "m1" ai (fileLoadedContent sampleFile) 1 None];
              s_file := Some sampleFile |} in
  s_fileName s = Some "Q3.xlsx" /\ s_name s = replaceExtension "Q3.xlsx".
Proof.
  cbv zeta.
  refine (reachable_names_follow_files
            (step (OpSetFile sampleFile "m1" 1) (initialState 0))
            {| s_id := "default"; s_name := "Q3";
               s_fileName := Some "Q3.xlsx"; s_timestamp := 0;
               s_messages :=
                 [mkChatMessage "m1" ai (fileLoadedContent sampleFile) 1 None];
               s_file := Some sampleFile |} _ _).
  - apply reachable_step; [apply reachable_initial | exact I].
  - left. reflexivity.
Defined.

(** X25: throughout a run, a message that carries a table is a message of the
    assistant, and its table has at most 5 rows. *)
Theorem reachable_tables_are_small
  (st : State) (s : ChatSession) (m : ChatMessage) (t : Table) :
  reachable st ->
  In s (sessions st) ->
  In m (s_messages s) ->
  m_table m = Some t ->
  m_role m = ai /\ List.length (t_rows t) <= 5.
Proof.
  intros R Hs Hm Ht.
  pose proof (reachable_sessions
                (fun s => forall m t, In m (s_messages s) ->
                                      m_table m = Some t ->
                                      m_role m = ai
                                      /\ List.length (t_rows t) <= 5)) as H.
  cbn [s_messages withMessage newChat] in H.
  assert (Hall : Forall
                   (fun s => forall m t, In m (s_messages s) ->
                                         m_table m = Some t ->
                                         m_role m = ai
                                         /\ List.length (t_rows t) <= 5)
                   (sessions st)).
  { apply H; try exact R.
    - intros now0 m0 t0 [].
    - intros id0 now0 m0 t0 [].
    - intros s0 msgId content now IH m0 t0 Hin Htab.
      apply in_app_or in Hin as [Hin|[<-|[]]]; [now apply IH|].
      discriminate Htab.
    - intros s0 msgId now question file IH m0 t0 Hin Htab.
      apply in_app_or in Hin as [Hin|[<-|[]]]; [now apply IH|].
      cbn in Htab. split; [reflexivity|].
      now apply (response_table_rows question file).
    - intros s0 file msgId now IH m0 t0 Hin Htab.
      apply in_app_or in Hin as [Hin|[<-|[]]]; [now apply IH|].
      discriminate Htab. }
  rewrite Forall_forall in Hall. exact (Hall s Hs m t Hm Ht).
Qed.

Lemma reachable_tables_are_small_witness :
  m_role (aiMessage "m2" 2 (generateMockResponse "show" (Some sampleFile))) = ai
  /\ List.length (uf_data sampleFile) <= 5.
Proof.
  refine (reachable_tables_are_small
            (step (OpTimeout (mkPending "default" "show") "m2" 2)
               (step (OpSendMessage "show" "m1" 1)
                  (step (OpSetFile sampleFile "m0" 0) (initialState 0))))
            (withMessage
               (aiMessage "m2" 2 (generateMockResponse "show" (Some sampleFile)))
               (withMessage (mkChatMessage "m1" user "show" 1 None)
                  {| s_id := "default"; s_name := "Q3";
                     s_fileName := Some "Q3.xlsx"; s_timestamp := 0;
                     s_messages :=
                       [mkChatMessage "m0" ai (fileLoadedContent sampleFile)
                          0 None];
                     s_file := Some sampleFile |}))
            (aiMessage "m2" 2 (generateMockResponse "show" (Some sampleFile)))
            (mkTable (uf_headers sampleFile) (uf_data sampleFile))
            _ _ _ _).
  - repeat (apply reachable_step; [|exact I]). apply reachable_initial.
  - left. reflexivity.
  - right. right. left. reflexivity.
  - reflexivity.
Defined.
